(** * Record/playback test-proxy transport: a shallow embedding

    The repository ships the same client-side shim in several variants:
    - [testproxytransport.go]: [TestProxyTransport] with [TestProxyVariables],
    - the policy variant: [TestProxy] plugged in as a per-call policy
      (two source files carry it, identical up to the mode constants),
    - the wrapping variant: [TestProxyVariable] around an [http.Client].

    Each variant is embedded in a module of its own.  Go pointers to
    [http.Request] and [url.URL] are locations of an explicit store; the
    underlying send primitive and the lifecycle HTTP client are operations of
    a small free monad, so that "the request as forwarded" can be observed. *)

From stdpp Require Import base strings gmap pretty.
From Stdlib Require Import ZArith Ascii.

Open Scope Z_scope.
Open Scope string_scope.

(** ** Go values shared by all variants *)

(** Go [error] values, by origin.  [fmtError] is what [fmt.Errorf] builds. *)
Inductive error : Type :=
| fmtError (msg : string)
| netError (msg : string)
| ioError (msg : string)
| urlError (msg : string)
| jsonError (msg : string).

(** [err.Error()] *)
Definition Error (e : error) : string :=
  match e with
  | fmtError m | netError m | ioError m | urlError m | jsonError m => m
  end.

(** How a Go call ends: it returns, or the goroutine panics. *)
Inductive outcome (A : Type) : Type :=
| Done (a : A)
| Crashed (msg : string).
Arguments Done {A} a.
Arguments Crashed {A} msg.

Definition nilDeref : string :=
  "runtime error: invalid memory address or nil pointer dereference".

(** [s] has [sub] as a contiguous part. *)
Definition Contains (s sub : string) : Prop :=
  exists pre post : string, s = pre +:+ sub +:+ post.

(** ** net/textproto: canonical header keys *)

Module textproto.

Definition between (lo hi : nat) (c : ascii) : bool :=
  (lo <=? nat_of_ascii c)%nat && (nat_of_ascii c <=? hi)%nat.

Definition isLower (c : ascii) : bool := between 97 122 c.
Definition isUpper (c : ascii) : bool := between 65 90 c.
Definition isDigit (c : ascii) : bool := between 48 57 c.

Fixpoint occurs (c : ascii) (s : string) : bool :=
  match s with
  | EmptyString => false
  | String d r => Ascii.eqb c d || occurs c r
  end.

(** token characters of RFC 7230 *)
Definition validHeaderFieldByte (c : ascii) : bool :=
  isLower c || isUpper c || isDigit c || occurs c "!#$%&'*+-.^_`|~".

Fixpoint allValid (s : string) : bool :=
  match s with
  | EmptyString => true
  | String c r => validHeaderFieldByte c && allValid r
  end.

Definition toLower : nat := 32.

(** first letter upper case and upper case after each dash *)
Fixpoint canonicalMIMEHeaderKey (upper : bool) (a : string) : string :=
  match a with
  | EmptyString => EmptyString
  | String c r =>
      let c' :=
        if upper && isLower c then ascii_of_nat (nat_of_ascii c - toLower)
        else if negb upper && isUpper c then ascii_of_nat (nat_of_ascii c + toLower)
        else c in
      String c' (canonicalMIMEHeaderKey (Ascii.eqb c' "-") r)
  end.

(** A key with a byte that is not a token character is returned as it is. *)
Definition CanonicalMIMEHeaderKey (s : string) : string :=
  if allValid s then canonicalMIMEHeaderKey true s else s.

End textproto.

(** ** net/url and net/http data *)

Abbreviation loc := positive.

Module url.
Record URL : Type := mkURL {
  Scheme : string;
  Opaque : string;
  User : string;
  Host : string;
  Path : string;
  RawPath : string;
  ForceQuery : bool;
  RawQuery : string;
  Fragment : string;
  RawFragment : string
}.

Definition withScheme (v : string) (u : URL) : URL :=
  mkURL v (Opaque u) (User u) (Host u) (Path u) (RawPath u)
        (ForceQuery u) (RawQuery u) (Fragment u) (RawFragment u).

Definition withHost (v : string) (u : URL) : URL :=
  mkURL (Scheme u) (Opaque u) (User u) v (Path u) (RawPath u)
        (ForceQuery u) (RawQuery u) (Fragment u) (RawFragment u).
End url.

Module http.

(** [http.Header] is [map[string][]string]. *)
Abbreviation Header := (gmap string (list string)).

(** [h.Set(key, value)]: the canonical key now holds the single value. *)
Definition Set_ (h : Header) (key value : string) : Header :=
  <[textproto.CanonicalMIMEHeaderKey key := [value]]> h.

(** [h.Get(key)]: first value of the canonical key, or the empty string. *)
Definition Get (h : Header) (key : string) : string :=
  match h !! textproto.CanonicalMIMEHeaderKey key with
  | Some (v :: _) => v
  | _ => ""
  end.

(** A response body as [io.ReadAll] sees it: the bytes it delivers and the
    error, if any, that ends the read. *)
Record Body : Type := mkBody {
  data : string;
  readErr : option error
}.

(** [io.ReadAll(body)] *)
Definition ReadAll (b : Body) : string * option error := (data b, readErr b).

Module Request.
(** [*http.Request]; [URL] is a pointer, the header map is owned by the
    request.  Requests reaching the transport are built by
    [http.NewRequest], so header map and URL pointer are present. *)
Record t : Type := mk {
  Method : string;
  URL : loc;
  Header : http.Header;
  Body : option string;
  ContentLength : Z;
  Host : string
}.

Definition withHeader (h : http.Header) (r : t) : t :=
  mk (Method r) (URL r) h (Body r) (ContentLength r) (Host r).

Definition withHost (v : string) (r : t) : t :=
  mk (Method r) (URL r) (Header r) (Body r) (ContentLength r) v.
End Request.

Module Response.
(** [*http.Response]; [Request] points at the request it answers. *)
Record t : Type := mk {
  StatusCode : Z;
  Header : http.Header;
  Body : http.Body;
  Request : loc
}.
End Response.

End http.

(** The three header names, [TestProxyHeader] in the source. *)
Module TestProxyHeader.
Definition RecordingIdHeader : string := "x-recording-id".
Definition RecordingModeHeader : string := "x-recording-mode".
Definition RecordingUpstreamURIHeader : string := "x-recording-upstream-base-uri".
End TestProxyHeader.

(** [TestProxyMode] *)
Module TestProxyMode.
Definition RecordMode : string := "record".
Definition PlaybackMode : string := "playback".
Definition LiveMode : string := "live".
End TestProxyMode.

(** ** Programs with observable calls

    A Go function body is a tree of operations; [Call o k] performs operation
    [o] and continues with its answer.  The operations are chosen per use
    below: store accesses and the underlying send for [Do], the lifecycle
    client for start and stop. *)

Section Programs.
Context {op : Type} {ans : op -> Type}.

Inductive prog (A : Type) : Type :=
| Return (a : A)
| Panic (msg : string)
| Call (o : op) (k : ans o -> prog A).

Fixpoint bind {A B : Type} (p : prog A) (f : A -> prog B) : prog B :=
  match p with
  | Return _ a => f a
  | Panic _ msg => Panic B msg
  | Call _ o k => Call B o (fun x => bind (k x) f)
  end.

Definition perform (o : op) : prog (ans o) := Call (ans o) o (Return (ans o)).

(** Interpretation in a state [S], given what each operation does. *)
Fixpoint interp {S A : Type} (h : forall o : op, S -> ans o * S)
    (p : prog A) (s : S) : outcome (A * S) :=
  match p with
  | Return _ a => Done (a, s)
  | Panic _ msg => Crashed msg
  | Call _ o k => let (x, s') := h o s in interp h (k x) s'
  end.

End Programs.

Arguments prog : clear implicits.
Arguments Return {op ans A} a.
Arguments Panic {op ans A} msg.
Arguments Call {op ans A} o k.

#[global] Instance prog_ret {op : Type} {ans : op -> Type} : MRet (prog op ans) :=
  fun A a => Return a.
#[global] Instance prog_bind {op : Type} {ans : op -> Type} : MBind (prog op ans) :=
  fun A B f p => bind p f.

(** ** The store of a send, and its operations *)

Record Store : Type := mkStore {
  reqs : gmap loc http.Request.t;
  urls : gmap loc url.URL
}.

(** What a send primitive hands back: [(resp, err)], either possibly nil. *)
Abbreviation RoundTrip := (option http.Response.t * option error)%type.

Inductive sendOp : Type :=
| Load
| Save (s : Store)
| Next (req : loc).

Definition sendAns (o : sendOp) : Type :=
  match o with
  | Load => Store
  | Save _ => unit
  | Next _ => RoundTrip
  end.

Abbreviation sending := (prog sendOp sendAns).

(** The send primitive below the shim: it sees the store, may change it, and
    answers. *)
Abbreviation Transporter := (loc -> Store -> RoundTrip * Store)%type.

Definition sendHandler (next : Transporter) (o : sendOp) : Store -> sendAns o * Store :=
  match o with
  | Load => fun s => (s, s)
  | Save s' => fun _ => (tt, s')
  | Next req => fun s => next req s
  end.

(** Running a send on top of a given primitive. *)
Definition run {A : Type} (next : Transporter) (p : sending A) (s : Store) : outcome (A * Store) :=
  interp (sendHandler next) p s.

(** The request handed to the primitive and the store at that moment, when the
    program gets that far. *)
Fixpoint forwarded {A : Type} (p : sending A) (s : Store) : option (loc * Store) :=
  match p with
  | Return _ => None
  | Panic _ => None
  | Call o k =>
      match o as o' return (sendAns o' -> sending A) -> option (loc * Store) with
      | Load => fun k' => forwarded (k' s) s
      | Save s' => fun k' => forwarded (k' tt) s'
      | Next req => fun _ => Some (req, s)
      end k
  end.

Definition load : sending Store := @perform sendOp sendAns Load.
Definition save (s : Store) : sending unit := @perform sendOp sendAns (Save s).
Definition callNext (req : loc) : sending RoundTrip := @perform sendOp sendAns (Next req).

(** [*req]: a nil or dangling pointer panics. *)
Definition derefRequest (req : loc) : sending http.Request.t :=
  s ← load;
  match reqs s !! req with
  | Some r => Return r
  | None => Panic nilDeref
  end.

Definition derefURL (u : loc) : sending url.URL :=
  s ← load;
  match urls s !! u with
  | Some v => Return v
  | None => Panic nilDeref
  end.

Definition storeRequest (req : loc) (r : http.Request.t) : sending unit :=
  s ← load;
  save (mkStore (<[req := r]> (reqs s)) (urls s)).

Definition storeURL (u : loc) (v : url.URL) : sending unit :=
  s ← load;
  save (mkStore (reqs s) (<[u := v]> (urls s))).

(** [req.URL.Scheme] and [req.URL.Host] *)
Definition getURLScheme (req : loc) : sending string :=
  r ← derefRequest req; u ← derefURL (http.Request.URL r); Return (url.Scheme u).

Definition getURLHost (req : loc) : sending string :=
  r ← derefRequest req; u ← derefURL (http.Request.URL r); Return (url.Host u).

(** [req.URL.Scheme = v] and [req.URL.Host = v] *)
Definition setURLScheme (req : loc) (v : string) : sending unit :=
  r ← derefRequest req; u ← derefURL (http.Request.URL r);
  storeURL (http.Request.URL r) (url.withScheme v u).

Definition setURLHost (req : loc) (v : string) : sending unit :=
  r ← derefRequest req; u ← derefURL (http.Request.URL r);
  storeURL (http.Request.URL r) (url.withHost v u).

(** [req.Host = v] *)
Definition setHost (req : loc) (v : string) : sending unit :=
  r ← derefRequest req; storeRequest req (http.Request.withHost v r).

(** [req.Header.Set(key, value)] *)
Definition headerSet (req : loc) (key value : string) : sending unit :=
  r ← derefRequest req;
  storeRequest req (http.Request.withHeader (http.Set_ (http.Request.Header r) key value) r).


(** ** The lifecycle client

    Start and stop build a fresh request with [http.NewRequest] and hand it to
    an [http.Client].  Such a request is never shared, so it is a value; its
    URL is kept as the string it was built from. *)

Module ClientRequest.
Record t : Type := mk {
  Method : string;
  Target : string;
  Header : http.Header;
  Body : option string;
  ContentLength : Z
}.

Definition withHeader (h : http.Header) (r : t) : t :=
  mk (Method r) (Target r) h (Body r) (ContentLength r).

Definition withBody (b : string) (r : t) : t :=
  mk (Method r) (Target r) (Header r) (Some b) (ContentLength r).

Definition withContentLength (n : Z) (r : t) : t :=
  mk (Method r) (Target r) (Header r) (Body r) n.
End ClientRequest.

(** The Go library functions the lifecycle calls rely on and the repository
    does not define. *)
Class Lib : Type := {
  (** [url.Parse] inside [http.NewRequest]: the error, if the target does not parse *)
  url_Parse : string -> option error;
  (** [json.Marshal] of a [map[string]string] *)
  json_Marshal : list (string * string) -> string * option error;
  (** [json.Unmarshal] into a [map[string]interface{}]: only the error is used *)
  json_Unmarshal : string -> option error;
  (** [path.Join] *)
  path_Join : list string -> string
}.

(** [http.NewRequest(method, target, nil)] for a valid method *)
Definition NewRequest `{Lib} (method target : string) : ClientRequest.t + error :=
  match url_Parse target with
  | Some err => inr err
  | None => inl (ClientRequest.mk method target ∅ None 0)
  end.

Inductive clientOp : Type :=
| ClientDo (req : ClientRequest.t).

Definition clientAns (o : clientOp) : Type := RoundTrip.

Abbreviation lifecycle := (prog clientOp clientAns).

Definition clientDo (req : ClientRequest.t) : lifecycle RoundTrip :=
  @perform clientOp clientAns (ClientDo req).

(** An [http.Client] as start and stop use it. *)
Abbreviation Client := (ClientRequest.t -> RoundTrip)%type.

Definition exec {A : Type} (client : Client) (p : lifecycle A) : outcome A :=
  match interp (S := unit) (fun o s => match o with ClientDo req => (client req, s) end) p tt with
  | Done (a, _) => Done a
  | Crashed msg => Crashed msg
  end.

(** The request a lifecycle call hands to the client, when it gets that far. *)
Definition sent {A : Type} (p : lifecycle A) : option ClientRequest.t :=
  match p with
  | Call (ClientDo req) _ => Some req
  | _ => None
  end.

Module testing.
Record T : Type := mkT { Name : string }.
End testing.

(** [len(b)] of a byte string *)
Definition len (b : string) : Z := Z.of_nat (String.length b).

(** ** The policy variant: [TestProxy]

    The session is plugged into the client pipeline as a per-call policy;
    [req.Raw()] is the request at [req] and [req.Next()] the rest of the
    pipeline. *)

Module Policy.

Record TestProxy : Type := mkTestProxy {
  Host : string;
  Port : Z;
  Mode : string;
  RecordingId : string;
  RecordingPath : string
}.

Definition withRecordingId (v : string) (tpv : TestProxy) : TestProxy :=
  mkTestProxy (Host tpv) (Port tpv) (Mode tpv) v (RecordingPath tpv).

(** [fmt.Sprintf("%s:%d", tpv.Host, tpv.Port)] *)
Definition host (tpv : TestProxy) : string :=
  Host tpv +:+ ":" +:+ pretty (Port tpv).

Definition scheme (tpv : TestProxy) : string := "https".

Definition baseURL (tpv : TestProxy) : string :=
  "https://" +:+ Host tpv +:+ ":" +:+ pretty (Port tpv).

Definition Do (tpv : TestProxy) (req : loc) : sending RoundTrip :=
  oriSchema ← getURLScheme req;
  oriHost ← getURLHost req;
  setURLScheme req (scheme tpv);;
  setURLHost req (host tpv);;
  setHost req (host tpv);;
  headerSet req TestProxyHeader.RecordingUpstreamURIHeader (oriSchema +:+ "://" +:+ oriHost);;
  headerSet req TestProxyHeader.RecordingModeHeader (Mode tpv);;
  headerSet req TestProxyHeader.RecordingIdHeader (RecordingId tpv);;
  r ← callNext req;
  match fst r with
  | Some resp =>
      setURLScheme (http.Response.Request resp) oriSchema;;
      setURLHost (http.Response.Request resp) oriHost;;
      Return r
  | None => Return r
  end.

Section Lifecycle.
Context `{Lib}.

Definition getRecordingFilePath (recordingPath : string) (t : testing.T) : string :=
  path_Join [recordingPath; "recordings"; testing.Name t +:+ ".json"].

(** The session after the call (nil stays nil) and the returned error. *)
Definition StartTestProxy (t : testing.T) (tpv : option TestProxy)
  : lifecycle (option TestProxy * option error) :=
  match tpv with
  | None => Return (None, Some (fmtError "TestProxy not empty"))
  | Some v =>
      let recordingFilePath := getRecordingFilePath (RecordingPath v) t in
      let url := baseURL v +:+ "/" +:+ Mode v +:+ "/start" in
      match NewRequest "POST" url with
      | inr err => Return (Some v, Some err)
      | inl req =>
          let req := ClientRequest.withHeader
                       (http.Set_ (ClientRequest.Header req) "Content-Type" "application/json") req in
          match json_Marshal [("x-recording-file", recordingFilePath)] with
          | (_, Some err) => Return (Some v, Some err)
          | (marshalled, None) =>
              let req := ClientRequest.withBody marshalled req in
              let req := ClientRequest.withContentLength (len marshalled) req in
              r ← clientDo req;
              match snd r with
              | Some err => Return (Some v, Some err)
              | None =>
                  match fst r with
                  | None => Panic nilDeref
                  | Some resp =>
                      let recId := http.Get (http.Response.Header resp)
                                            TestProxyHeader.RecordingIdHeader in
                      if decide (recId = "") then
                        match http.ReadAll (http.Response.Body resp) with
                        | (_, Some err) => Return (Some v, Some err)
                        | (b, None) =>
                            Return (Some v, Some (fmtError
                              ("recording ID was not returned by the response. Response body: " +:+ b)))
                        end
                      else
                        let v' := withRecordingId recId v in
                        match http.ReadAll (http.Response.Body resp) with
                        | (_, Some err) => Return (Some v', Some err)
                        | (body, None) =>
                            if decide (len body > 0) then
                              match json_Unmarshal body with
                              | Some err => Return (Some v', Some err)
                              | None => Return (Some v', None)
                              end
                            else Return (Some v', None)
                        end
                  end
              end
          end
      end
  end.

Definition StopTestProxy (t : testing.T) (tpv : option TestProxy)
  : lifecycle (option error) :=
  match tpv with
  | None => Return (Some (fmtError "TestProxy not empty"))
  | Some v =>
      let url := baseURL v +:+ "/" +:+ Mode v +:+ "/stop" in
      match NewRequest "POST" url with
      | inr err => Return (Some err)
      | inl req =>
          let req := ClientRequest.withHeader
                       (http.Set_ (ClientRequest.Header req)
                                  TestProxyHeader.RecordingIdHeader (RecordingId v)) req in
          r ← clientDo req;
          match fst r with
          | None => Panic nilDeref
          | Some resp =>
              if decide (http.Response.StatusCode resp ≠ 200) then
                match http.ReadAll (http.Response.Body resp) with
                | (b, None) =>
                    Return (Some (fmtError ("proxy did not stop the recording properly: " +:+ b)))
                | (_, Some err) =>
                    Return (Some (fmtError ("proxy did not stop the recording properly: " +:+ Error err)))
                end
              else Return (snd r)
          end
      end
  end.

End Lifecycle.
End Policy.

(** ** The wrapping variant: [TestProxyVariable]

    The session is itself the client transport; it forwards with
    [tpv.Client.Do(req)].  [NewTestProxy] sets [Client], which is taken to be
    present and is the send primitive below. *)

Module Wrapper.

Record TestProxyVariable : Type := mkTestProxyVariable {
  Host : string;
  Port : Z;
  Mode : string;
  RecordingId : string;
  RecordingPath : string
}.

Definition withRecordingId (v : string) (tpv : TestProxyVariable) : TestProxyVariable :=
  mkTestProxyVariable (Host tpv) (Port tpv) (Mode tpv) v (RecordingPath tpv).

(** [fmt.Sprintf("%s:%d", tpv.Host, tpv.Port)] *)
Definition host (tpv : TestProxyVariable) : string :=
  Host tpv +:+ ":" +:+ pretty (Port tpv).

Definition scheme (tpv : TestProxyVariable) : string :=
  if decide (Port tpv = 5001) then "https" else "http".

Definition baseURL (tpv : TestProxyVariable) : string :=
  scheme tpv +:+ "://" +:+ Host tpv +:+ ":" +:+ pretty (Port tpv).

Definition Do (tpv : TestProxyVariable) (req : loc) : sending RoundTrip :=
  oriSchema ← getURLScheme req;
  oriHost ← getURLHost req;
  setURLScheme req (scheme tpv);;
  setURLHost req (host tpv);;
  setHost req (host tpv);;
  headerSet req TestProxyHeader.RecordingUpstreamURIHeader (oriSchema +:+ "://" +:+ oriHost);;
  headerSet req TestProxyHeader.RecordingModeHeader (Mode tpv);;
  headerSet req TestProxyHeader.RecordingIdHeader (RecordingId tpv);;
  r ← callNext req;
  match fst r with
  | Some resp =>
      setURLScheme (http.Response.Request resp) oriSchema;;
      setURLHost (http.Response.Request resp) oriHost;;
      Return r
  | None => Return r
  end.

Section Lifecycle.
Context `{Lib}.

Definition getRecordingFilePath (recordingPath : string) (t : testing.T) : string :=
  path_Join [recordingPath; "recordings"; testing.Name t +:+ ".json"].

(** The session after the call (nil stays nil) and the returned error. *)
Definition StartTestProxy (t : testing.T) (tpv : option TestProxyVariable)
  : lifecycle (option TestProxyVariable * option error) :=
  match tpv with
  | None => Return (None, Some (fmtError "TestProxy not empty"))
  | Some v =>
      let recordingFilePath := getRecordingFilePath (RecordingPath v) t in
      let url := baseURL v +:+ "/" +:+ Mode v +:+ "/start" in
      match NewRequest "POST" url with
      | inr err => Return (Some v, Some err)
      | inl req =>
          let req := ClientRequest.withHeader
                       (http.Set_ (ClientRequest.Header req) "Content-Type" "application/json") req in
          match json_Marshal [("x-recording-file", recordingFilePath)] with
          | (_, Some err) => Return (Some v, Some err)
          | (marshalled, None) =>
              let req := ClientRequest.withBody marshalled req in
              let req := ClientRequest.withContentLength (len marshalled) req in
              r ← clientDo req;
              match snd r with
              | Some err => Return (Some v, Some err)
              | None =>
                  match fst r with
                  | None => Panic nilDeref
                  | Some resp =>
                      let recId := http.Get (http.Response.Header resp)
                                            TestProxyHeader.RecordingIdHeader in
                      if decide (recId = "") then
                        match http.ReadAll (http.Response.Body resp) with
                        | (_, Some err) => Return (Some v, Some err)
                        | (b, None) =>
                            Return (Some v, Some (fmtError
                              ("recording ID was not returned by the response. Response body: " +:+ b)))
                        end
                      else
                        let v' := withRecordingId recId v in
                        match http.ReadAll (http.Response.Body resp) with
                        | (_, Some err) => Return (Some v', Some err)
                        | (body, None) =>
                            if decide (len body > 0) then
                              match json_Unmarshal body with
                              | Some err => Return (Some v', Some err)
                              | None => Return (Some v', None)
                              end
                            else Return (Some v', None)
                        end
                  end
              end
          end
      end
  end.

Definition StopTestProxy (t : testing.T) (tpv : option TestProxyVariable)
  : lifecycle (option error) :=
  match tpv with
  | None => Return (Some (fmtError "TestProxy not empty"))
  | Some v =>
      let url := baseURL v +:+ "/" +:+ Mode v +:+ "/stop" in
      match NewRequest "POST" url with
      | inr err => Return (Some err)
      | inl req =>
          let req := ClientRequest.withHeader
                       (http.Set_ (ClientRequest.Header req)
                                  TestProxyHeader.RecordingIdHeader (RecordingId v)) req in
          r ← clientDo req;
          match fst r with
          | None => Panic nilDeref
          | Some resp =>
              if decide (http.Response.StatusCode resp ≠ 200) then
                match http.ReadAll (http.Response.Body resp) with
                | (b, None) =>
                    Return (Some (fmtError ("proxy did not stop the recording properly: " +:+ b)))
                | (_, Some err) =>
                    Return (Some (fmtError ("proxy did not stop the recording properly: " +:+ Error err)))
                end
              else Return (snd r)
          end
      end
  end.

End Lifecycle.
End Wrapper.

(** ** [testproxytransport.go]: [TestProxyTransport] and [TestProxyVariables]

    [tpt.transport] is the send primitive below; [tpv.HttpClient] is the
    lifecycle client ([NewTestProxyVariables] sets it). *)

Module Transport.

Record TestProxyTransport : Type := mkTestProxyTransport {
  host : string;
  port : Z;
  mode : string;
  recordingId : string
}.

Definition NewTestProxyTransport (host : string) (port : Z) (recordingId mode : string)
  : TestProxyTransport :=
  mkTestProxyTransport host port mode recordingId.

Definition Do (tpt : TestProxyTransport) (req : loc) : sending RoundTrip :=
  headerSet req "x-recording-id" (recordingId tpt);;
  headerSet req "x-recording-mode" (mode tpt);;
  scheme ← getURLScheme req;
  host_ ← getURLHost req;
  let baseUri := scheme +:+ "://" +:+ host_ in
  headerSet req "x-recording-upstream-base-uri" baseUri;;
  setURLHost req (host tpt +:+ ":" +:+ pretty (port tpt));;
  callNext req.

Record TestProxyVariables : Type := mkTestProxyVariables {
  Host : string;
  Port : Z;
  Mode : string;
  RecordingId : string;
  CurrentRecordingPath : string
}.

Definition withRecordingId (v : string) (tpv : TestProxyVariables) : TestProxyVariables :=
  mkTestProxyVariables (Host tpv) (Port tpv) (Mode tpv) v (CurrentRecordingPath tpv).

Section Lifecycle.
Context `{Lib}.

Definition getRecordingFilePath (t : testing.T) (recordingPath : string) : string :=
  path_Join [recordingPath; "recordings"; testing.Name t +:+ ".json"].

(** [strconv.FormatBool] *)
Definition FormatBool (b : bool) : string := if b then "true" else "false".

(** The session after the call and the returned error; a nil session panics
    at the first field access. *)
Definition StartTestProxy (tpv : option TestProxyVariables)
  : lifecycle (TestProxyVariables * option error) :=
  match tpv with
  | None => Panic nilDeref
  | Some v =>
      let url := "https://" +:+ Host v +:+ ":" +:+ pretty (Port v) +:+ "/" +:+ Mode v +:+ "/start" in
      match NewRequest "POST" url with
      | inr err => Return (v, Some err)
      | inl req =>
          let req := ClientRequest.withHeader
                       (http.Set_ (ClientRequest.Header req) "Content-Type" "application/json") req in
          match json_Marshal [("x-recording-file", CurrentRecordingPath v)] with
          | (_, Some err) => Return (v, Some err)
          | (marshalled, None) =>
              let req := ClientRequest.withBody marshalled req in
              let req := ClientRequest.withContentLength (len marshalled) req in
              r ← clientDo req;
              match snd r with
              | Some err => Return (v, Some err)
              | None =>
                  match fst r with
                  | None => Panic nilDeref
                  | Some resp =>
                      Return (withRecordingId
                                (http.Get (http.Response.Header resp) "x-recording-id") v,
                              None)
                  end
              end
          end
      end
  end.

Definition StopTestProxy (tpv : option TestProxyVariables) : lifecycle (option error) :=
  match tpv with
  | None => Panic nilDeref
  | Some v =>
      let url := "https://" +:+ Host v +:+ ":" +:+ pretty (Port v) +:+ "/" +:+ Mode v +:+ "/stop" in
      match NewRequest "POST" url with
      | inr err => Return (Some err)
      | inl req =>
          let req := ClientRequest.withHeader
                       (http.Set_ (ClientRequest.Header req) "x-recording-id" (RecordingId v)) req in
          let req := ClientRequest.withHeader
                       (http.Set_ (ClientRequest.Header req) "x-recording-save" (FormatBool true)) req in
          r ← clientDo req;
          Return (snd r)
      end
  end.

End Lifecycle.
End Transport.

(** ** What is observed of a send *)

(** The request record and its URL as the primitive receives them. *)
Definition forwardedRequest {A : Type} (p : sending A) (s : Store) : option http.Request.t :=
  match forwarded p s with
  | Some (req, s1) => reqs s1 !! req
  | None => None
  end.

Definition forwardedURL {A : Type} (p : sending A) (s : Store) : option url.URL :=
  match forwarded p s with
  | Some (req, s1) =>
      match reqs s1 !! req with
      | Some r => urls s1 !! http.Request.URL r
      | None => None
      end
  | None => None
  end.

(** The URL a response's request reference points at, in store [s]. *)
Definition originURL (s : Store) (resp : http.Response.t) : option url.URL :=
  match reqs s !! http.Response.Request resp with
  | Some r => urls s !! http.Request.URL r
  | None => None
  end.

(** Header [key] is present in [h] with the single value [v]. *)
Definition carries (h : http.Header) (key v : string) : Prop :=
  h !! textproto.CanonicalMIMEHeaderKey key = Some [v] /\ http.Get h key = v.

(** The three recording headers with the given values. *)
Definition recordingHeaders (h : http.Header) (upstream mode id : string) : Prop :=
  carries h "x-recording-upstream-base-uri" upstream /\
  carries h "x-recording-mode" mode /\
  carries h "x-recording-id" id.

(** [k] is none of the map keys the three recording headers live under. *)
Definition otherKey (k : string) : Prop :=
  k <> textproto.CanonicalMIMEHeaderKey "x-recording-upstream-base-uri" /\
  k <> textproto.CanonicalMIMEHeaderKey "x-recording-mode" /\
  k <> textproto.CanonicalMIMEHeaderKey "x-recording-id".

(** Everything of request [r] and its URL [u] except URL scheme, URL host,
    the Host field and the recording headers is the same in [r1] and [u1]. *)
Definition framed (r r1 : http.Request.t) (u u1 : url.URL) : Prop :=
  http.Request.Method r1 = http.Request.Method r /\
  http.Request.URL r1 = http.Request.URL r /\
  http.Request.Body r1 = http.Request.Body r /\
  http.Request.ContentLength r1 = http.Request.ContentLength r /\
  (forall k : string, otherKey k ->
     http.Request.Header r1 !! k = http.Request.Header r !! k) /\
  url.Opaque u1 = url.Opaque u /\
  url.User u1 = url.User u /\
  url.Path u1 = url.Path u /\
  url.RawPath u1 = url.RawPath u /\
  url.ForceQuery u1 = url.ForceQuery u /\
  url.RawQuery u1 = url.RawQuery u /\
  url.Fragment u1 = url.Fragment u /\
  url.RawFragment u1 = url.RawFragment u.

(** ** Concrete sessions, requests and peers used in the examples *)

Module Fixture.

(** the double-quote character *)
Definition dq : string := String (ascii_of_nat 34) EmptyString.

(** A permissive stand-in for the library: every target parses, the body is
    the usual one-field object, every body unmarshals unless it is [oops]. *)
#[local] Instance lib : Lib := {|
  url_Parse := fun _ => None;
  json_Marshal := fun kvs =>
    match kvs with
    | [(k, v)] => ("{" +:+ dq +:+ k +:+ dq +:+ ":" +:+ dq +:+ v +:+ dq +:+ "}", None)
    | _ => ("{}", None)
    end;
  json_Unmarshal := fun b =>
    if decide (b = "oops")
    then Some (jsonError "invalid character 'o' looking for beginning of value")
    else None;
  path_Join := fun parts => foldr (fun a b => if decide (b = "") then a else a +:+ "/" +:+ b) "" parts
|}.

Definition t0 : testing.T := testing.mkT "TestCosmosDBTables".

Definition policy0 : Policy.TestProxy :=
  Policy.mkTestProxy "localhost" 5001 "record" "abc123" "/repo".
Definition policy8080 : Policy.TestProxy :=
  Policy.mkTestProxy "localhost" 8080 "record" "abc123" "/repo".
Definition policyFresh : Policy.TestProxy :=
  Policy.mkTestProxy "localhost" 5001 "record" "" "/repo".
Definition wrapper0 : Wrapper.TestProxyVariable :=
  Wrapper.mkTestProxyVariable "localhost" 5001 "record" "abc123" "/repo".
Definition wrapper5000 : Wrapper.TestProxyVariable :=
  Wrapper.mkTestProxyVariable "localhost" 5000 "playback" "abc123" "/repo".
Definition wrapperFresh : Wrapper.TestProxyVariable :=
  Wrapper.mkTestProxyVariable "localhost" 5001 "record" "" "/repo".
Definition transport0 : Transport.TestProxyTransport :=
  Transport.NewTestProxyTransport "localhost" 5001 "abc123" "record".
Definition variables0 : Transport.TestProxyVariables :=
  Transport.mkTestProxyVariables "localhost" 5001 "record" "abc123" "/repo/recordings/t.json".
Definition variablesFresh : Transport.TestProxyVariables :=
  Transport.mkTestProxyVariables "localhost" 5001 "record" "" "/repo/recordings/t.json".

(** GET https://service.example.com/foo?x=1 with one header of its own *)
Definition url0 : url.URL :=
  url.mkURL "https" "" "" "service.example.com" "/foo" "" false "x=1" "" "".
Definition request0 : http.Request.t :=
  http.Request.mk "GET" 7 {[ "Accept" := ["application/json"] ]} None 0 "service.example.com".
Definition store0 : Store := mkStore {[ 1%positive := request0 ]} {[ 7%positive := url0 ]}.

(** A primitive that answers 200 for the very request it was given, as
    [http.Client] does when there is no redirect. *)
Definition echo : Transporter :=
  fun req s => ((Some (http.Response.mk 200 ∅ (http.mkBody "" None) req), None), s).

(** A primitive that fails without a response. *)
Definition refused : Transporter :=
  fun req s => ((None, Some (netError "dial tcp: connection refused")), s).

Definition answer (status : Z) (h : http.Header) (b : http.Body) : Client :=
  fun _ => (Some (http.Response.mk status h b 1), None).

Definition unreachable : Client :=
  fun _ => (None, Some (netError "dial tcp: connection refused")).

Definition idHeader : http.Header := {[ "X-Recording-Id" := ["abc123"] ]}.

End Fixture.

(** ** Reasoning devices for sends *)

(** [p] runs from [s] to the value [a] and the store [s'] without reaching the
    primitive: in front of any continuation it may be replaced by its result,
    both for what is forwarded and for the whole run. *)
Definition evalsTo {A : Type} (p : sending A) (s : Store) (a : A) (s' : Store) : Prop :=
  forall (B : Type) (f : A -> sending B),
    forwarded (p ≫= f) s = forwarded (f a) s' /\
    forall next : Transporter, run next (p ≫= f) s = run next (f a) s'.

(** [p] started in [s] forwards [fw] and, on top of primitive [next], ends as
    [res next]. *)
Definition behaves {A : Type} (p : sending A) (s : Store)
    (fw : option (loc * Store)) (res : Transporter -> outcome (A * Store)) : Prop :=
  forwarded p s = fw /\ forall next : Transporter, run next p s = res next.

(** ** [parse.go]: loading the environment file *)

(** Go's [strings] package, as far as [Load] uses it. *)
Module gostrings.

(** [strings.Split(s, sep)] for a one-byte separator: the pieces between the
    occurrences of [sep], one more than there are occurrences. *)
Fixpoint Split (s : string) (sep : ascii) : list string :=
  match s with
  | EmptyString => [EmptyString]
  | String c r =>
      if Ascii.eqb c sep then EmptyString :: Split r sep
      else match Split r sep with
           | p :: ps => String c p :: ps
           | [] => [String c EmptyString]
           end
  end.

(** [strings.HasSuffix(s, suffix)] *)
Definition HasSuffix (s suffix : string) : bool :=
  (String.length suffix <=? String.length s)%nat &&
  String.eqb (String.substring (String.length s - String.length suffix) (String.length suffix) s) suffix.

(** [strings.TrimSuffix(s, suffix)] *)
Definition TrimSuffix (s suffix : string) : string :=
  if HasSuffix s suffix
  then String.substring 0 (String.length s - String.length suffix) s
  else s.

End gostrings.

Definition space : ascii := ascii_of_nat 32.
Definition newline : ascii := ascii_of_nat 10.
Definition cr : ascii := ascii_of_nat 13.

(** What [Load] needs of the operating system: the file read and the process
    environment with its [os.Setenv], whose error [Load] drops. *)
Class OS : Type := {
  Environ : Type;
  ReadFile : string -> string + error;
  Setenv : Environ -> string -> string -> Environ
}.

Module parse.
(** [Load(root)]: the environment after the call and the returned error. *)
Definition Load `{OS} (root : string) (env : Environ) : Environ * option error :=
  match ReadFile root with
  | inr err => (env, Some err)
  | inl envFile =>
      (foldl (fun env line =>
                match gostrings.Split line space with
                | [k; v] => Setenv env k (gostrings.TrimSuffix v (String cr EmptyString))
                | _ => env
                end)
             env (gostrings.Split envFile newline),
       None)
  end.
End parse.

(** *** Vocabulary for statements about [Load] *)

(** the number of bytes [c] in [s] *)
Fixpoint count (c : ascii) (s : string) : nat :=
  match s with
  | EmptyString => 0
  | String d r => (if Ascii.eqb d c then 1 else 0) + count c r
  end.

(** the lines joined by newlines, without a final newline *)
Fixpoint unlines (ls : list string) : string :=
  match ls with
  | [] => EmptyString
  | [l] => l
  | l :: rest => l +:+ String newline (unlines rest)
  end.

(** a line of the file for one variable, ended by a carriage return when the
    file has CRLF line ends *)
Definition envLine (crlf : bool) (kv : string * string) : string :=
  fst kv +:+ String space (snd kv) +:+ (if crlf then String cr EmptyString else EmptyString).

(** a key and a value that survive the file format: no space, no newline, and
    the value not ending in a carriage return of its own *)
Definition storable (kv : string * string) : Prop :=
  count space (fst kv) = 0%nat /\ count newline (fst kv) = 0%nat /\
  count space (snd kv) = 0%nat /\ count newline (snd kv) = 0%nat /\
  gostrings.HasSuffix (snd kv) (String cr EmptyString) = false.

Module FixtureEnv.

(** A file system holding [files] and a Unix process environment:
    [syscall.Setenv] rejects an empty key, a key with [=] or NUL and a value
    with NUL, and the environment is then as before. *)
Definition unix (files : gmap string string) : OS := {|
  Environ := gmap string string;
  ReadFile := fun name =>
    match files !! name with
    | Some content => inl content
    | None => inr (ioError ("open " +:+ name +:+ ": no such file or directory"))
    end;
  Setenv := fun env k v =>
    if decide (k = "") then env
    else if (0 <? count (ascii_of_nat 61) k + count (ascii_of_nat 0) k + count (ascii_of_nat 0) v)%nat
         then env
         else <[k := v]> env
|}.

Definition settings : list (string * string) :=
  [("USE_PROXY", "true"); ("PROXY_HOST", "localhost"); ("PROXY_PORT", "5001")].

(** the settings, one per line with CRLF line ends *)
Definition dotenv : string := unlines (map (envLine true) settings).

(** a file in [KEY=VALUE] form with a blank line and a comment *)
Definition dotenvEquals : string :=
  unlines ["USE_PROXY=true"; ""; "# proxy settings follow: host, port"; "PROXY_PORT=5001"].

(** A library whose URL parser rejects a target with a space in it. *)
Definition strictLib : Lib := {|
  url_Parse := fun target =>
    if (0 <? count space target)%nat
    then Some (urlError "invalid character in host name") else None;
  json_Marshal := @json_Marshal Fixture.lib;
  json_Unmarshal := @json_Unmarshal Fixture.lib;
  path_Join := @path_Join Fixture.lib
|}.

Definition policySpaced : Policy.TestProxy :=
  Policy.mkTestProxy "local host" 5001 "record" "" "/repo".

(** A primitive whose response has no request reference. *)
Definition orphan : Transporter :=
  fun req s => ((Some (http.Response.mk 200 ∅ (http.mkBody "" None) 99), None), s).

(** A client that gives up on a redirect loop: the last 3xx response comes
    along with the error, and its body is already closed. *)
Definition redirecting (status : Z) : Client :=
  fun _ => (Some (http.Response.mk status ∅
                    (http.mkBody "" (Some (ioError "http: read on closed response body"))) 1),
            Some (netError "stopped after 10 redirects")).

End FixtureEnv.

(** * Properties *)

(** ** Stepping through a send *)

Section Stepping.
Context (req : loc) (s : Store) (r : http.Request.t) (u : url.URL).
Hypothesis Hreq : reqs s !! req = Some r.
Hypothesis Hurl : urls s !! http.Request.URL r = Some u.

#[local] Ltac step_through :=
  intros B f; unfold run; split; [|intros next];
  cbn; rewrite Hreq; cbn; rewrite ?Hurl; reflexivity.

Lemma evalsTo_getURLScheme : evalsTo (getURLScheme req) s (url.Scheme u) s.
Proof. unfold getURLScheme, derefRequest, derefURL. step_through. Qed.

Lemma evalsTo_getURLHost : evalsTo (getURLHost req) s (url.Host u) s.
Proof. unfold getURLHost, derefRequest, derefURL. step_through. Qed.

Lemma evalsTo_setURLScheme (v : string) :
  evalsTo (setURLScheme req v) s tt
    (mkStore (reqs s) (<[http.Request.URL r := url.withScheme v u]> (urls s))).
Proof. unfold setURLScheme, storeURL, derefRequest, derefURL. step_through. Qed.

Lemma evalsTo_setURLHost (v : string) :
  evalsTo (setURLHost req v) s tt
    (mkStore (reqs s) (<[http.Request.URL r := url.withHost v u]> (urls s))).
Proof. unfold setURLHost, storeURL, derefRequest, derefURL. step_through. Qed.

Lemma evalsTo_setHost (v : string) :
  evalsTo (setHost req v) s tt
    (mkStore (<[req := http.Request.withHost v r]> (reqs s)) (urls s)).
Proof. unfold setHost, storeRequest, derefRequest. step_through. Qed.

Lemma evalsTo_headerSet (key v : string) :
  evalsTo (headerSet req key v) s tt
    (mkStore (<[req := http.Request.withHeader (http.Set_ (http.Request.Header r) key v) r]> (reqs s))
             (urls s)).
Proof. unfold headerSet, storeRequest, derefRequest. step_through. Qed.

End Stepping.

Lemma behaves_bind {A B : Type} (p : sending A) (f : A -> sending B) s a s' fw res :
  evalsTo p s a s' -> behaves (f a) s' fw res -> behaves (p ≫= f) s fw res.
Proof.
  intros He [Hf Hr]. destruct (He B f) as [H1 H2]. split.
  - congruence.
  - intros next. rewrite H2. apply Hr.
Qed.

Lemma behaves_callNext {B : Type} req (f : RoundTrip -> sending B) s :
  behaves (callNext req ≫= f) s (Some (req, s))
    (fun next => let (rt, s') := next req s in run next (f rt) s').
Proof. split; [reflexivity | intros next; reflexivity]. Qed.

Lemma behaves_callNext_last req s :
  behaves (callNext req) s (Some (req, s))
    (fun next => let (rt, s') := next req s in Done (rt, s')).
Proof.
  split; [reflexivity |].
  intros next. unfold run. cbn. destruct (next req s). reflexivity.
Qed.

Ltac advance lem :=
  eapply behaves_bind;
  [ eapply lem; cbn [reqs urls]; first [eassumption | apply lookup_insert_eq]
  | cbn [reqs urls]; rewrite ?insert_insert_eq ].

(** The restoring tail of [Do]: both assignments go through the response's
    request reference. *)
Lemma restore_runs next (rt : RoundTrip) resp s' r' u' (sch hst : string) :
  reqs s' !! http.Response.Request resp = Some r' ->
  urls s' !! http.Request.URL r' = Some u' ->
  run next (setURLScheme (http.Response.Request resp) sch;;
            setURLHost (http.Response.Request resp) hst;;
            Return rt) s'
  = Done (rt, mkStore (reqs s')
                (<[http.Request.URL r' := url.withHost hst (url.withScheme sch u')]> (urls s'))).
Proof.
  intros Hr Hu.
  assert (Hb : behaves (setURLScheme (http.Response.Request resp) sch;;
                        setURLHost (http.Response.Request resp) hst;;
                        Return rt) s' None
                 (fun _ => Done (rt, mkStore (reqs s')
                    (<[http.Request.URL r' := url.withHost hst (url.withScheme sch u')]> (urls s'))))).
  { advance evalsTo_setURLScheme. advance evalsTo_setURLHost.
    split; [reflexivity | intros; reflexivity]. }
  apply Hb.
Qed.

(** ** What each [Do] forwards and how it ends *)

Section DoBehaves.
Context (req : loc) (s : Store) (r : http.Request.t) (u : url.URL).
Hypothesis Hreq : reqs s !! req = Some r.
Hypothesis Hurl : urls s !! http.Request.URL r = Some u.

Lemma Policy_Do_behaves (tpv : Policy.TestProxy) :
  let h := http.Set_ (http.Set_ (http.Set_ (http.Request.Header r)
             "x-recording-upstream-base-uri" (url.Scheme u +:+ "://" +:+ url.Host u))
             "x-recording-mode" (Policy.Mode tpv))
             "x-recording-id" (Policy.RecordingId tpv) in
  let r1 := http.Request.withHeader h (http.Request.withHost (Policy.host tpv) r) in
  let u1 := url.withHost (Policy.host tpv) (url.withScheme (Policy.scheme tpv) u) in
  let s1 := mkStore (<[req := r1]> (reqs s)) (<[http.Request.URL r := u1]> (urls s)) in
  behaves (Policy.Do tpv req) s (Some (req, s1))
    (fun next =>
       let (rt, s') := next req s1 in
       run next
         match fst rt with
         | Some resp =>
             setURLScheme (http.Response.Request resp) (url.Scheme u);;
             setURLHost (http.Response.Request resp) (url.Host u);;
             Return rt
         | None => Return rt
         end s').
Proof.
  intros h r1 u1 s1. unfold Policy.Do.
  advance evalsTo_getURLScheme. advance evalsTo_getURLHost.
  advance evalsTo_setURLScheme. advance evalsTo_setURLHost.
  advance evalsTo_setHost.
  advance evalsTo_headerSet. advance evalsTo_headerSet. advance evalsTo_headerSet.
  apply behaves_callNext.
Qed.

Lemma Wrapper_Do_behaves (tpv : Wrapper.TestProxyVariable) :
  let h := http.Set_ (http.Set_ (http.Set_ (http.Request.Header r)
             "x-recording-upstream-base-uri" (url.Scheme u +:+ "://" +:+ url.Host u))
             "x-recording-mode" (Wrapper.Mode tpv))
             "x-recording-id" (Wrapper.RecordingId tpv) in
  let r1 := http.Request.withHeader h (http.Request.withHost (Wrapper.host tpv) r) in
  let u1 := url.withHost (Wrapper.host tpv) (url.withScheme (Wrapper.scheme tpv) u) in
  let s1 := mkStore (<[req := r1]> (reqs s)) (<[http.Request.URL r := u1]> (urls s)) in
  behaves (Wrapper.Do tpv req) s (Some (req, s1))
    (fun next =>
       let (rt, s') := next req s1 in
       run next
         match fst rt with
         | Some resp =>
             setURLScheme (http.Response.Request resp) (url.Scheme u);;
             setURLHost (http.Response.Request resp) (url.Host u);;
             Return rt
         | None => Return rt
         end s').
Proof.
  intros h r1 u1 s1. unfold Wrapper.Do.
  advance evalsTo_getURLScheme. advance evalsTo_getURLHost.
  advance evalsTo_setURLScheme. advance evalsTo_setURLHost.
  advance evalsTo_setHost.
  advance evalsTo_headerSet. advance evalsTo_headerSet. advance evalsTo_headerSet.
  apply behaves_callNext.
Qed.

Lemma Transport_Do_behaves (tpt : Transport.TestProxyTransport) :
  let h := http.Set_ (http.Set_ (http.Set_ (http.Request.Header r)
             "x-recording-id" (Transport.recordingId tpt))
             "x-recording-mode" (Transport.mode tpt))
             "x-recording-upstream-base-uri" (url.Scheme u +:+ "://" +:+ url.Host u) in
  let r1 := http.Request.withHeader h r in
  let u1 := url.withHost (Transport.host tpt +:+ ":" +:+ pretty (Transport.port tpt)) u in
  let s1 := mkStore (<[req := r1]> (reqs s)) (<[http.Request.URL r := u1]> (urls s)) in
  behaves (Transport.Do tpt req) s (Some (req, s1))
    (fun next => let (rt, s') := next req s1 in Done (rt, s')).
Proof.
  intros h r1 u1 s1. unfold Transport.Do.
  advance evalsTo_headerSet. advance evalsTo_headerSet.
  advance evalsTo_getURLScheme. advance evalsTo_getURLHost.
  advance evalsTo_headerSet. advance evalsTo_setURLHost.
  apply behaves_callNext_last.
Qed.

End DoBehaves.

(** ** Header facts *)

Lemma canonical_recording_keys :
  textproto.CanonicalMIMEHeaderKey "x-recording-upstream-base-uri" = "X-Recording-Upstream-Base-Uri" /\
  textproto.CanonicalMIMEHeaderKey "x-recording-mode" = "X-Recording-Mode" /\
  textproto.CanonicalMIMEHeaderKey "x-recording-id" = "X-Recording-Id".
Proof. repeat split; reflexivity. Qed.

Lemma carries_Set_same (h : http.Header) (key v : string) :
  carries (http.Set_ h key v) key v.
Proof.
  unfold carries, http.Get, http.Set_. rewrite lookup_insert_eq. split; reflexivity.
Qed.

Lemma carries_Set_other (h : http.Header) (key key' v v' : string) :
  textproto.CanonicalMIMEHeaderKey key' <> textproto.CanonicalMIMEHeaderKey key ->
  carries h key v -> carries (http.Set_ h key' v') key v.
Proof.
  unfold carries, http.Get, http.Set_. intros Hne [Hl Hg].
  rewrite lookup_insert_ne by exact Hne. rewrite Hl. split; reflexivity.
Qed.

Lemma Set_other_key (h : http.Header) (key v k : string) :
  k <> textproto.CanonicalMIMEHeaderKey key -> http.Set_ h key v !! k = h !! k.
Proof. intros Hne. unfold http.Set_. apply lookup_insert_ne. congruence. Qed.

(** The order in which the three headers are set does not matter. *)
Lemma recordingHeaders_upstream_first (h : http.Header) (up m i : string) :
  recordingHeaders
    (http.Set_ (http.Set_ (http.Set_ h "x-recording-upstream-base-uri" up)
                          "x-recording-mode" m) "x-recording-id" i) up m i.
Proof.
  repeat split; try apply carries_Set_same;
    repeat (first [apply carries_Set_same | apply carries_Set_other; [discriminate|]]).
Qed.

Lemma recordingHeaders_id_first (h : http.Header) (up m i : string) :
  recordingHeaders
    (http.Set_ (http.Set_ (http.Set_ h "x-recording-id" i)
                          "x-recording-mode" m) "x-recording-upstream-base-uri" up) up m i.
Proof.
  repeat split; try apply carries_Set_same;
    repeat (first [apply carries_Set_same | apply carries_Set_other; [discriminate|]]).
Qed.

Lemma otherKey_Set3 (h : http.Header) (k k1 v1 k2 v2 k3 v3 : string) :
  k <> textproto.CanonicalMIMEHeaderKey k1 ->
  k <> textproto.CanonicalMIMEHeaderKey k2 ->
  k <> textproto.CanonicalMIMEHeaderKey k3 ->
  http.Set_ (http.Set_ (http.Set_ h k1 v1) k2 v2) k3 v3 !! k = h !! k.
Proof. intros H1 H2 H3. rewrite !Set_other_key by assumption. reflexivity. Qed.

(** Reading the forwarded request and URL off the forwarded store. *)
Lemma forwarded_views {A : Type} (p : sending A) (s : Store) (req l : loc)
    (r1 : http.Request.t) (u1 : url.URL)
    (rs : gmap loc http.Request.t) (us : gmap loc url.URL) :
  forwarded p s = Some (req, mkStore (<[req := r1]> rs) (<[l := u1]> us)) ->
  http.Request.URL r1 = l ->
  forwardedRequest p s = Some r1 /\ forwardedURL p s = Some u1.
Proof.
  intros Hf Hl. unfold forwardedRequest, forwardedURL. rewrite Hf. cbn [reqs urls].
  rewrite lookup_insert_eq, Hl. split; [reflexivity | apply lookup_insert_eq].
Qed.

(** ** The forwarded request *)

(** C2: in every variant of [Do], the request handed to the send primitive
    carries [x-recording-upstream-base-uri] with the scheme and host the URL
    had on entry, [x-recording-mode] with the session's mode and
    [x-recording-id] with the session's recording id. *)
Theorem recording_headers_on_forwarded_request
    (req : loc) (s : Store) (r : http.Request.t) (u : url.URL) :
  reqs s !! req = Some r ->
  urls s !! http.Request.URL r = Some u ->
  (forall tpv : Policy.TestProxy, exists r1,
      forwardedRequest (Policy.Do tpv req) s = Some r1 /\
      recordingHeaders (http.Request.Header r1)
        (url.Scheme u +:+ "://" +:+ url.Host u) (Policy.Mode tpv) (Policy.RecordingId tpv)) /\
  (forall tpv : Wrapper.TestProxyVariable, exists r1,
      forwardedRequest (Wrapper.Do tpv req) s = Some r1 /\
      recordingHeaders (http.Request.Header r1)
        (url.Scheme u +:+ "://" +:+ url.Host u) (Wrapper.Mode tpv) (Wrapper.RecordingId tpv)) /\
  (forall tpt : Transport.TestProxyTransport, exists r1,
      forwardedRequest (Transport.Do tpt req) s = Some r1 /\
      recordingHeaders (http.Request.Header r1)
        (url.Scheme u +:+ "://" +:+ url.Host u) (Transport.mode tpt) (Transport.recordingId tpt)).
Proof.
  intros Hr Hu. repeat split; intros tp.
  - destruct (Policy_Do_behaves req s r u Hr Hu tp) as [Hf _].
    apply forwarded_views in Hf as [Hq _]; [|reflexivity]. eexists. split; [exact Hq|].
    apply recordingHeaders_upstream_first.
  - destruct (Wrapper_Do_behaves req s r u Hr Hu tp) as [Hf _].
    apply forwarded_views in Hf as [Hq _]; [|reflexivity]. eexists. split; [exact Hq|].
    apply recordingHeaders_upstream_first.
  - destruct (Transport_Do_behaves req s r u Hr Hu tp) as [Hf _].
    apply forwarded_views in Hf as [Hq _]; [|reflexivity]. eexists. split; [exact Hq|].
    apply recordingHeaders_id_first.
Qed.

Lemma recording_headers_witness :
  (reqs Fixture.store0 !! 1%positive = Some Fixture.request0 /\
   urls Fixture.store0 !! http.Request.URL Fixture.request0 = Some Fixture.url0) /\
  exists r1,
    forwardedRequest (Policy.Do Fixture.policy0 1) Fixture.store0 = Some r1 /\
    recordingHeaders (http.Request.Header r1) "https://service.example.com" "record" "abc123".
Proof.
  split; [split; reflexivity|].
  exact (proj1 (recording_headers_on_forwarded_request 1 Fixture.store0
                  Fixture.request0 Fixture.url0 eq_refl eq_refl) Fixture.policy0).
Defined.

(** C3, as stated, fails for [TestProxyTransport.Do]: forwarding the sample
    request for the session on localhost:5001, the Host field of the
    forwarded request is not the proxy's host:port (it still names the
    service). *)
Lemma target_overwrite_counterexample :
  exists r1,
    forwardedRequest (Transport.Do Fixture.transport0 1) Fixture.store0 = Some r1 /\
    http.Request.Host r1 = "service.example.com" /\
    http.Request.Host r1 <> "localhost:5001".
Proof.
  eexists. split; [vm_compute; reflexivity|]. split; [reflexivity | discriminate].
Qed.

(** C3, amended: [TestProxy.Do] and [TestProxyVariable.Do] forward the request
    with URL scheme, URL host and Host field overwritten by the session's
    scheme and host:port; [TestProxyTransport.Do] overwrites the URL host with
    host:port and keeps the URL scheme and the Host field as they were. *)
Theorem target_overwritten_before_forwarding
    (req : loc) (s : Store) (r : http.Request.t) (u : url.URL) :
  reqs s !! req = Some r ->
  urls s !! http.Request.URL r = Some u ->
  (forall tpv : Policy.TestProxy, exists r1 u1,
      forwardedRequest (Policy.Do tpv req) s = Some r1 /\
      forwardedURL (Policy.Do tpv req) s = Some u1 /\
      url.Scheme u1 = Policy.scheme tpv /\
      url.Host u1 = Policy.Host tpv +:+ ":" +:+ pretty (Policy.Port tpv) /\
      http.Request.Host r1 = Policy.Host tpv +:+ ":" +:+ pretty (Policy.Port tpv)) /\
  (forall tpv : Wrapper.TestProxyVariable, exists r1 u1,
      forwardedRequest (Wrapper.Do tpv req) s = Some r1 /\
      forwardedURL (Wrapper.Do tpv req) s = Some u1 /\
      url.Scheme u1 = Wrapper.scheme tpv /\
      url.Host u1 = Wrapper.Host tpv +:+ ":" +:+ pretty (Wrapper.Port tpv) /\
      http.Request.Host r1 = Wrapper.Host tpv +:+ ":" +:+ pretty (Wrapper.Port tpv)) /\
  (forall tpt : Transport.TestProxyTransport, exists r1 u1,
      forwardedRequest (Transport.Do tpt req) s = Some r1 /\
      forwardedURL (Transport.Do tpt req) s = Some u1 /\
      url.Host u1 = Transport.host tpt +:+ ":" +:+ pretty (Transport.port tpt) /\
      url.Scheme u1 = url.Scheme u /\
      http.Request.Host r1 = http.Request.Host r).
Proof.
  intros Hr Hu. repeat split; intros tp.
  - destruct (Policy_Do_behaves req s r u Hr Hu tp) as [Hf _].
    apply forwarded_views in Hf as [Hq Hv]; [|reflexivity].
    do 2 eexists. split; [exact Hq|]. split; [exact Hv|]. repeat split.
  - destruct (Wrapper_Do_behaves req s r u Hr Hu tp) as [Hf _].
    apply forwarded_views in Hf as [Hq Hv]; [|reflexivity].
    do 2 eexists. split; [exact Hq|]. split; [exact Hv|]. repeat split.
  - destruct (Transport_Do_behaves req s r u Hr Hu tp) as [Hf _].
    apply forwarded_views in Hf as [Hq Hv]; [|reflexivity].
    do 2 eexists. split; [exact Hq|]. split; [exact Hv|]. repeat split.
Qed.

Lemma target_overwritten_witness :
  (reqs Fixture.store0 !! 1%positive = Some Fixture.request0 /\
   urls Fixture.store0 !! http.Request.URL Fixture.request0 = Some Fixture.url0) /\
  exists r1 u1,
    forwardedRequest (Wrapper.Do Fixture.wrapper5000 1) Fixture.store0 = Some r1 /\
    forwardedURL (Wrapper.Do Fixture.wrapper5000 1) Fixture.store0 = Some u1 /\
    url.Scheme u1 = "http" /\
    url.Host u1 = "localhost:5000" /\
    http.Request.Host r1 = "localhost:5000".
Proof.
  split; [split; reflexivity|].
  exact (proj1 (proj2 (target_overwritten_before_forwarding 1 Fixture.store0
                         Fixture.request0 Fixture.url0 eq_refl eq_refl)) Fixture.wrapper5000).
Defined.

(** C10: in every variant of [Do], the forwarded request has the method,
    URL pointer, body, content length and every header other than the three
    recording headers of the request on entry, and its URL has the same
    opaque part, user, path, raw path, query and fragment. *)
Theorem rest_of_request_unchanged
    (req : loc) (s : Store) (r : http.Request.t) (u : url.URL) :
  reqs s !! req = Some r ->
  urls s !! http.Request.URL r = Some u ->
  (forall tpv : Policy.TestProxy, exists r1 u1,
      forwardedRequest (Policy.Do tpv req) s = Some r1 /\
      forwardedURL (Policy.Do tpv req) s = Some u1 /\
      framed r r1 u u1) /\
  (forall tpv : Wrapper.TestProxyVariable, exists r1 u1,
      forwardedRequest (Wrapper.Do tpv req) s = Some r1 /\
      forwardedURL (Wrapper.Do tpv req) s = Some u1 /\
      framed r r1 u u1) /\
  (forall tpt : Transport.TestProxyTransport, exists r1 u1,
      forwardedRequest (Transport.Do tpt req) s = Some r1 /\
      forwardedURL (Transport.Do tpt req) s = Some u1 /\
      framed r r1 u u1).
Proof.
  intros Hr Hu. repeat split; intros tp.
  - destruct (Policy_Do_behaves req s r u Hr Hu tp) as [Hf _].
    apply forwarded_views in Hf as [Hq Hv]; [|reflexivity].
    do 2 eexists. split; [exact Hq|]. split; [exact Hv|].
    unfold framed. repeat split.
    intros k (H1 & H2 & H3). cbn. apply otherKey_Set3; assumption.
  - destruct (Wrapper_Do_behaves req s r u Hr Hu tp) as [Hf _].
    apply forwarded_views in Hf as [Hq Hv]; [|reflexivity].
    do 2 eexists. split; [exact Hq|]. split; [exact Hv|].
    unfold framed. repeat split.
    intros k (H1 & H2 & H3). cbn. apply otherKey_Set3; assumption.
  - destruct (Transport_Do_behaves req s r u Hr Hu tp) as [Hf _].
    apply forwarded_views in Hf as [Hq Hv]; [|reflexivity].
    do 2 eexists. split; [exact Hq|]. split; [exact Hv|].
    unfold framed. repeat split.
    intros k (H1 & H2 & H3). cbn. apply otherKey_Set3; assumption.
Qed.

Lemma rest_of_request_witness :
  (reqs Fixture.store0 !! 1%positive = Some Fixture.request0 /\
   urls Fixture.store0 !! http.Request.URL Fixture.request0 = Some Fixture.url0) /\
  exists r1 u1,
    forwardedRequest (Transport.Do Fixture.transport0 1) Fixture.store0 = Some r1 /\
    forwardedURL (Transport.Do Fixture.transport0 1) Fixture.store0 = Some u1 /\
    framed Fixture.request0 r1 Fixture.url0 u1.
Proof.
  split; [split; reflexivity|].
  exact (proj2 (proj2 (rest_of_request_unchanged 1 Fixture.store0
                         Fixture.request0 Fixture.url0 eq_refl eq_refl)) Fixture.transport0).
Defined.

(** ** Restoring the response's request reference *)

(** C1, as stated, fails for [TestProxyTransport.Do]: on top of a primitive
    that answers for the request it was given, the response's request
    reference ends up with the proxy's host, not the host captured on entry. *)
Lemma restoration_counterexample :
  exists resp s2 u2,
    run Fixture.echo (Transport.Do Fixture.transport0 1) Fixture.store0
      = Done ((Some resp, None), s2) /\
    originURL s2 resp = Some u2 /\
    url.Host Fixture.url0 = "service.example.com" /\
    url.Host u2 = "localhost:5001".
Proof.
  do 3 eexists. split; [vm_compute; reflexivity|].
  split; [vm_compute; reflexivity|]. split; reflexivity.
Qed.

(** C1, amended: for [TestProxy.Do] and [TestProxyVariable.Do], whenever the
    send primitive hands back a response whose request reference is valid,
    [Do] returns that response and the URL behind its request reference has
    the scheme and host the request's URL had on entry.
    [TestProxyTransport.Do] hands back the primitive's result and store as
    they are, without restoring anything. *)
Theorem restoration_round_trips
    (next : Transporter) (req : loc) (s : Store) (r : http.Request.t) (u : url.URL) :
  reqs s !! req = Some r ->
  urls s !! http.Request.URL r = Some u ->
  (forall tpv : Policy.TestProxy, exists s1,
      forwarded (Policy.Do tpv req) s = Some (req, s1) /\
      forall resp err s' r' u',
        next req s1 = ((Some resp, err), s') ->
        reqs s' !! http.Response.Request resp = Some r' ->
        urls s' !! http.Request.URL r' = Some u' ->
        exists s2 u2,
          run next (Policy.Do tpv req) s = Done ((Some resp, err), s2) /\
          originURL s2 resp = Some u2 /\
          url.Scheme u2 = url.Scheme u /\ url.Host u2 = url.Host u) /\
  (forall tpv : Wrapper.TestProxyVariable, exists s1,
      forwarded (Wrapper.Do tpv req) s = Some (req, s1) /\
      forall resp err s' r' u',
        next req s1 = ((Some resp, err), s') ->
        reqs s' !! http.Response.Request resp = Some r' ->
        urls s' !! http.Request.URL r' = Some u' ->
        exists s2 u2,
          run next (Wrapper.Do tpv req) s = Done ((Some resp, err), s2) /\
          originURL s2 resp = Some u2 /\
          url.Scheme u2 = url.Scheme u /\ url.Host u2 = url.Host u) /\
  (forall tpt : Transport.TestProxyTransport, exists s1,
      forwarded (Transport.Do tpt req) s = Some (req, s1) /\
      run next (Transport.Do tpt req) s = let (rt, s') := next req s1 in Done (rt, s')).
Proof.
  intros Hr Hu. repeat split.
  - intros tpv. destruct (Policy_Do_behaves req s r u Hr Hu tpv) as [Hf Hrun].
    eexists. split; [exact Hf|].
    intros resp err s' r' u' Hnext Hr' Hu'.
    rewrite Hrun, Hnext. cbn [fst].
    rewrite (restore_runs next _ resp s' r' u' _ _ Hr' Hu').
    do 2 eexists. split; [reflexivity|].
    unfold originURL. cbn [reqs urls]. rewrite Hr', lookup_insert_eq.
    repeat split.
  - intros tpv. destruct (Wrapper_Do_behaves req s r u Hr Hu tpv) as [Hf Hrun].
    eexists. split; [exact Hf|].
    intros resp err s' r' u' Hnext Hr' Hu'.
    rewrite Hrun, Hnext. cbn [fst].
    rewrite (restore_runs next _ resp s' r' u' _ _ Hr' Hu').
    do 2 eexists. split; [reflexivity|].
    unfold originURL. cbn [reqs urls]. rewrite Hr', lookup_insert_eq.
    repeat split.
  - intros tpt. destruct (Transport_Do_behaves req s r u Hr Hu tpt) as [Hf Hrun].
    eexists. split; [exact Hf|]. apply Hrun.
Qed.

Lemma restoration_witness :
  (reqs Fixture.store0 !! 1%positive = Some Fixture.request0 /\
   urls Fixture.store0 !! http.Request.URL Fixture.request0 = Some Fixture.url0) /\
  exists resp s2 u2,
    run Fixture.echo (Policy.Do Fixture.policy0 1) Fixture.store0
      = Done ((Some resp, None), s2) /\
    originURL s2 resp = Some u2 /\
    url.Scheme u2 = "https" /\ url.Host u2 = "service.example.com".
Proof.
  split; [split; reflexivity|].
  destruct (proj1 (restoration_round_trips Fixture.echo 1 Fixture.store0
                     Fixture.request0 Fixture.url0 eq_refl eq_refl) Fixture.policy0)
    as (s1 & Hf & Hrest).
  destruct (Hrest (http.Response.mk 200 ∅ (http.mkBody "" None) 1) None s1
              (default Fixture.request0 (reqs s1 !! 1%positive))
              (default Fixture.url0 (urls s1 !! 7%positive)))
    as (s2 & u2 & Hrun & Ho & Hs & Hh).
  - reflexivity.
  - vm_compute in Hf. injection Hf as <-. reflexivity.
  - vm_compute in Hf. injection Hf as <-. vm_compute. reflexivity.
  - exists (http.Response.mk 200 ∅ (http.mkBody "" None) 1), s2, u2.
    repeat split; assumption.
Defined.

(** ** What start and stop send and return *)

Lemma append_empty_r (s : string) : s +:+ "" = s.
Proof.
  induction s as [|c s IH]; [reflexivity|].
  change (String c (s +:+ "") = String c s). rewrite IH. reflexivity.
Qed.

Lemma Contains_suffix (pre sub : string) : Contains (pre +:+ sub) sub.
Proof. exists pre, "". rewrite append_empty_r. reflexivity. Qed.

Section PolicyLifecycle.
Context `{Lib}.

Lemma Policy_Start_sent t v creq :
  sent (Policy.StartTestProxy t (Some v)) = Some creq ->
  url_Parse (Policy.baseURL v +:+ "/" +:+ Policy.Mode v +:+ "/start") = None /\
  exists marshalled,
    json_Marshal [("x-recording-file", Policy.getRecordingFilePath (Policy.RecordingPath v) t)]
      = (marshalled, None) /\
    creq = ClientRequest.mk "POST" (Policy.baseURL v +:+ "/" +:+ Policy.Mode v +:+ "/start")
             (http.Set_ ∅ "Content-Type" "application/json") (Some marshalled) (len marshalled).
Proof.
  unfold Policy.StartTestProxy, NewRequest.
  destruct (url_Parse _) as [e|]; [discriminate|].
  destruct (json_Marshal _) as [m [e|]]; [discriminate|].
  cbn. intros [= <-]. split; [reflexivity|]. exists m. split; reflexivity.
Qed.

Lemma Policy_Start_exec client t v creq :
  sent (Policy.StartTestProxy t (Some v)) = Some creq ->
  exec client (Policy.StartTestProxy t (Some v)) =
    match snd (client creq) with
    | Some err => Done (Some v, Some err)
    | None =>
        match fst (client creq) with
        | None => Crashed nilDeref
        | Some resp =>
            let recId := http.Get (http.Response.Header resp) "x-recording-id" in
            if decide (recId = "") then
              match http.readErr (http.Response.Body resp) with
              | Some err => Done (Some v, Some err)
              | None => Done (Some v, Some (fmtError
                  ("recording ID was not returned by the response. Response body: "
                   +:+ http.data (http.Response.Body resp))))
              end
            else
              match http.readErr (http.Response.Body resp) with
              | Some err => Done (Some (Policy.withRecordingId recId v), Some err)
              | None =>
                  if decide (len (http.data (http.Response.Body resp)) > 0) then
                    Done (Some (Policy.withRecordingId recId v),
                          json_Unmarshal (http.data (http.Response.Body resp)))
                  else Done (Some (Policy.withRecordingId recId v), None)
              end
        end
    end.
Proof.
  unfold Policy.StartTestProxy, NewRequest.
  destruct (url_Parse _) as [e|]; [discriminate|].
  destruct (json_Marshal _) as [m [e|]]; [discriminate|].
  cbn. intros [= <-]. unfold exec. cbn.
  destruct (client _) as [[resp|] [err|]]; cbn; try reflexivity.
  unfold http.ReadAll, TestProxyHeader.RecordingIdHeader.
  destruct (decide _); destruct (http.readErr _); cbn; try reflexivity.
  destruct (decide _); [destruct (json_Unmarshal _)|]; reflexivity.
Qed.

(** Without a request sent, start ends before the client: the session is
    as it was. *)
Lemma Policy_Start_unsent client t v :
  sent (Policy.StartTestProxy t (Some v)) = None ->
  exists e, exec client (Policy.StartTestProxy t (Some v)) = Done (Some v, Some e).
Proof.
  unfold Policy.StartTestProxy, NewRequest.
  destruct (url_Parse _) as [e|]; [intros _; exists e; reflexivity|].
  destruct (json_Marshal _) as [m [e|]]; [intros _; exists e; reflexivity|].
  cbn. discriminate.
Qed.

Lemma Policy_Stop_sent t v creq :
  sent (Policy.StopTestProxy t (Some v)) = Some creq ->
  creq = ClientRequest.mk "POST" (Policy.baseURL v +:+ "/" +:+ Policy.Mode v +:+ "/stop")
           (http.Set_ ∅ "x-recording-id" (Policy.RecordingId v)) None 0.
Proof.
  unfold Policy.StopTestProxy, NewRequest.
  destruct (url_Parse _) as [e|]; [discriminate|].
  cbn. intros [= <-]. reflexivity.
Qed.

Lemma Policy_Stop_exec client t v creq :
  sent (Policy.StopTestProxy t (Some v)) = Some creq ->
  exec client (Policy.StopTestProxy t (Some v)) =
    match fst (client creq) with
    | None => Crashed nilDeref
    | Some resp =>
        if decide (http.Response.StatusCode resp ≠ 200) then
          match http.readErr (http.Response.Body resp) with
          | None => Done (Some (fmtError ("proxy did not stop the recording properly: "
                                          +:+ http.data (http.Response.Body resp))))
          | Some err => Done (Some (fmtError ("proxy did not stop the recording properly: "
                                              +:+ Error err)))
          end
        else Done (snd (client creq))
    end.
Proof.
  unfold Policy.StopTestProxy, NewRequest.
  destruct (url_Parse _) as [e|]; [discriminate|].
  cbn. intros [= <-]. unfold exec. cbn.
  destruct (client _) as [[resp|] err]; cbn; try reflexivity.
  unfold http.ReadAll.
  destruct (decide _); [destruct (http.readErr _)|]; reflexivity.
Qed.

End PolicyLifecycle.

Section WrapperLifecycle.
Context `{Lib}.

Lemma Wrapper_Start_sent t v creq :
  sent (Wrapper.StartTestProxy t (Some v)) = Some creq ->
  url_Parse (Wrapper.baseURL v +:+ "/" +:+ Wrapper.Mode v +:+ "/start") = None /\
  exists marshalled,
    json_Marshal [("x-recording-file", Wrapper.getRecordingFilePath (Wrapper.RecordingPath v) t)]
      = (marshalled, None) /\
    creq = ClientRequest.mk "POST" (Wrapper.baseURL v +:+ "/" +:+ Wrapper.Mode v +:+ "/start")
             (http.Set_ ∅ "Content-Type" "application/json") (Some marshalled) (len marshalled).
Proof.
  unfold Wrapper.StartTestProxy, NewRequest.
  destruct (url_Parse _) as [e|]; [discriminate|].
  destruct (json_Marshal _) as [m [e|]]; [discriminate|].
  cbn. intros [= <-]. split; [reflexivity|]. exists m. split; reflexivity.
Qed.

Lemma Wrapper_Start_exec client t v creq :
  sent (Wrapper.StartTestProxy t (Some v)) = Some creq ->
  exec client (Wrapper.StartTestProxy t (Some v)) =
    match snd (client creq) with
    | Some err => Done (Some v, Some err)
    | None =>
        match fst (client creq) with
        | None => Crashed nilDeref
        | Some resp =>
            let recId := http.Get (http.Response.Header resp) "x-recording-id" in
            if decide (recId = "") then
              match http.readErr (http.Response.Body resp) with
              | Some err => Done (Some v, Some err)
              | None => Done (Some v, Some (fmtError
                  ("recording ID was not returned by the response. Response body: "
                   +:+ http.data (http.Response.Body resp))))
              end
            else
              match http.readErr (http.Response.Body resp) with
              | Some err => Done (Some (Wrapper.withRecordingId recId v), Some err)
              | None =>
                  if decide (len (http.data (http.Response.Body resp)) > 0) then
                    Done (Some (Wrapper.withRecordingId recId v),
                          json_Unmarshal (http.data (http.Response.Body resp)))
                  else Done (Some (Wrapper.withRecordingId recId v), None)
              end
        end
    end.
Proof.
  unfold Wrapper.StartTestProxy, NewRequest.
  destruct (url_Parse _) as [e|]; [discriminate|].
  destruct (json_Marshal _) as [m [e|]]; [discriminate|].
  cbn. intros [= <-]. unfold exec. cbn.
  destruct (client _) as [[resp|] [err|]]; cbn; try reflexivity.
  unfold http.ReadAll, TestProxyHeader.RecordingIdHeader.
  destruct (decide _); destruct (http.readErr _); cbn; try reflexivity.
  destruct (decide _); [destruct (json_Unmarshal _)|]; reflexivity.
Qed.

Lemma Wrapper_Start_unsent client t v :
  sent (Wrapper.StartTestProxy t (Some v)) = None ->
  exists e, exec client (Wrapper.StartTestProxy t (Some v)) = Done (Some v, Some e).
Proof.
  unfold Wrapper.StartTestProxy, NewRequest.
  destruct (url_Parse _) as [e|]; [intros _; exists e; reflexivity|].
  destruct (json_Marshal _) as [m [e|]]; [intros _; exists e; reflexivity|].
  cbn. discriminate.
Qed.

Lemma Wrapper_Stop_sent t v creq :
  sent (Wrapper.StopTestProxy t (Some v)) = Some creq ->
  creq = ClientRequest.mk "POST" (Wrapper.baseURL v +:+ "/" +:+ Wrapper.Mode v +:+ "/stop")
           (http.Set_ ∅ "x-recording-id" (Wrapper.RecordingId v)) None 0.
Proof.
  unfold Wrapper.StopTestProxy, NewRequest.
  destruct (url_Parse _) as [e|]; [discriminate|].
  cbn. intros [= <-]. reflexivity.
Qed.

Lemma Wrapper_Stop_exec client t v creq :
  sent (Wrapper.StopTestProxy t (Some v)) = Some creq ->
  exec client (Wrapper.StopTestProxy t (Some v)) =
    match fst (client creq) with
    | None => Crashed nilDeref
    | Some resp =>
        if decide (http.Response.StatusCode resp ≠ 200) then
          match http.readErr (http.Response.Body resp) with
          | None => Done (Some (fmtError ("proxy did not stop the recording properly: "
                                          +:+ http.data (http.Response.Body resp))))
          | Some err => Done (Some (fmtError ("proxy did not stop the recording properly: "
                                              +:+ Error err)))
          end
        else Done (snd (client creq))
    end.
Proof.
  unfold Wrapper.StopTestProxy, NewRequest.
  destruct (url_Parse _) as [e|]; [discriminate|].
  cbn. intros [= <-]. unfold exec. cbn.
  destruct (client _) as [[resp|] err]; cbn; try reflexivity.
  unfold http.ReadAll.
  destruct (decide _); [destruct (http.readErr _)|]; reflexivity.
Qed.

End WrapperLifecycle.

Section TransportLifecycle.
Context `{Lib}.

Lemma Transport_Start_exec client v creq :
  sent (Transport.StartTestProxy (Some v)) = Some creq ->
  exec client (Transport.StartTestProxy (Some v)) =
    match snd (client creq) with
    | Some err => Done (v, Some err)
    | None =>
        match fst (client creq) with
        | None => Crashed nilDeref
        | Some resp =>
            Done (Transport.withRecordingId
                    (http.Get (http.Response.Header resp) "x-recording-id") v, None)
        end
    end.
Proof.
  unfold Transport.StartTestProxy, NewRequest.
  destruct (url_Parse _) as [e|]; [discriminate|].
  destruct (json_Marshal _) as [m [e|]]; [discriminate|].
  cbn. intros [= <-]. unfold exec. cbn.
  destruct (client _) as [[resp|] [err|]]; reflexivity.
Qed.

Lemma Transport_Stop_sent v creq :
  sent (Transport.StopTestProxy (Some v)) = Some creq ->
  creq = ClientRequest.mk "POST"
           ("https://" +:+ Transport.Host v +:+ ":" +:+ pretty (Transport.Port v)
            +:+ "/" +:+ Transport.Mode v +:+ "/stop")
           (http.Set_ (http.Set_ ∅ "x-recording-id" (Transport.RecordingId v))
                      "x-recording-save" "true") None 0.
Proof.
  unfold Transport.StopTestProxy, NewRequest.
  destruct (url_Parse _) as [e|]; [discriminate|].
  cbn. intros [= <-]. reflexivity.
Qed.

Lemma Transport_Stop_exec client v creq :
  sent (Transport.StopTestProxy (Some v)) = Some creq ->
  exec client (Transport.StopTestProxy (Some v)) = Done (snd (client creq)).
Proof.
  unfold Transport.StopTestProxy, NewRequest.
  destruct (url_Parse _) as [e|]; [discriminate|].
  cbn. intros [= <-]. unfold exec. cbn.
  destruct (client _) as [resp err]; reflexivity.
Qed.

End TransportLifecycle.

(** ** Start *)

(** C4, as stated, fails for the [StartTestProxy] of [testproxytransport.go]:
    a response without [x-recording-id] makes it return no error and store
    the empty recording id. *)
Lemma start_without_id_counterexample :
  http.Get ∅ "x-recording-id" = "" /\
  exec (Fixture.answer 200 ∅ (http.mkBody "oops" None))
       (@Transport.StartTestProxy Fixture.lib (Some Fixture.variablesFresh))
    = Done (Fixture.variablesFresh, None) /\
  Transport.RecordingId Fixture.variablesFresh = "".
Proof. repeat split; vm_compute; reflexivity. Qed.

(** C4, amended: in the [TestProxy] and [TestProxyVariable] variants, when the
    proxy answers start without an [x-recording-id], start returns an error
    and the session is as before: the "recording ID was not returned" error
    with the body appended when the body can be read, the read error
    otherwise.  The [StartTestProxy] of [testproxytransport.go] makes no such
    check: it stores what the header lookup gives and returns no error. *)
Theorem start_without_recording_id `{Lib} (client : Client) (resp : http.Response.t) :
  http.Get (http.Response.Header resp) "x-recording-id" = "" ->
  (forall t v creq,
      sent (Policy.StartTestProxy t (Some v)) = Some creq ->
      client creq = (Some resp, None) ->
      exec client (Policy.StartTestProxy t (Some v)) =
        Done (Some v, Some
          match http.readErr (http.Response.Body resp) with
          | Some err => err
          | None => fmtError
              ("recording ID was not returned by the response. Response body: "
               +:+ http.data (http.Response.Body resp))
          end)) /\
  (forall t v creq,
      sent (Wrapper.StartTestProxy t (Some v)) = Some creq ->
      client creq = (Some resp, None) ->
      exec client (Wrapper.StartTestProxy t (Some v)) =
        Done (Some v, Some
          match http.readErr (http.Response.Body resp) with
          | Some err => err
          | None => fmtError
              ("recording ID was not returned by the response. Response body: "
               +:+ http.data (http.Response.Body resp))
          end)) /\
  (forall v creq,
      sent (Transport.StartTestProxy (Some v)) = Some creq ->
      client creq = (Some resp, None) ->
      exec client (Transport.StartTestProxy (Some v)) =
        Done (Transport.withRecordingId "" v, None)).
Proof.
  intros Hget. repeat split.
  - intros t v creq Hs Hc. rewrite (Policy_Start_exec client t v creq Hs), Hc.
    cbn [fst snd]. cbv zeta. rewrite Hget.
    destruct (decide ("" = "")) as [_|Hn]; [|contradiction].
    destruct (http.readErr _); reflexivity.
  - intros t v creq Hs Hc. rewrite (Wrapper_Start_exec client t v creq Hs), Hc.
    cbn [fst snd]. cbv zeta. rewrite Hget.
    destruct (decide ("" = "")) as [_|Hn]; [|contradiction].
    destruct (http.readErr _); reflexivity.
  - intros v creq Hs Hc. rewrite (Transport_Start_exec client v creq Hs), Hc.
    cbn [fst snd]. rewrite Hget. reflexivity.
Qed.

Lemma start_without_recording_id_witness :
  http.Get (http.Response.Header (http.Response.mk 200 ∅ (http.mkBody "oops" None) 1))
           "x-recording-id" = "" /\
  exec (Fixture.answer 200 ∅ (http.mkBody "oops" None))
       (@Policy.StartTestProxy Fixture.lib Fixture.t0 (Some Fixture.policyFresh))
    = Done (Some Fixture.policyFresh,
            Some (fmtError "recording ID was not returned by the response. Response body: oops")).
Proof.
  split; [reflexivity|].
  exact (proj1 (@start_without_recording_id Fixture.lib
                  (Fixture.answer 200 ∅ (http.mkBody "oops" None))
                  (http.Response.mk 200 ∅ (http.mkBody "oops" None) 1) eq_refl)
           Fixture.t0 Fixture.policyFresh
           (ClientRequest.mk "POST" "https://localhost:5001/record/start"
              (http.Set_ ∅ "Content-Type" "application/json")
              (Some (fst (@json_Marshal Fixture.lib
                 [("x-recording-file", "/repo/recordings/TestCosmosDBTables.json")])))
              63)
           eq_refl eq_refl).
Defined.

(** C9, as stated, fails: the proxy answers start with
    [x-recording-id: abc123] and a body whose read breaks off; start returns
    the read error, and the session that had no recording id now holds
    [abc123]. *)
Lemma start_not_atomic_counterexample :
  Policy.RecordingId Fixture.policyFresh = "" /\
  exists v',
    exec (Fixture.answer 200 Fixture.idHeader
            (http.mkBody "" (Some (ioError "unexpected EOF"))))
         (@Policy.StartTestProxy Fixture.lib Fixture.t0 (Some Fixture.policyFresh))
      = Done (Some v', Some (ioError "unexpected EOF")) /\
    Policy.RecordingId v' = "abc123".
Proof.
  split; [reflexivity|]. eexists. split; [vm_compute; reflexivity | reflexivity].
Qed.

(** C9, amended: when start returns an error, the session is unchanged, unless
    the error arose while reading or unmarshalling the response body after a
    non-empty [x-recording-id] had been received: then the recording id is
    already set to the received id.  When start returns no error, the
    recording id is the received, non-empty id. *)
Theorem start_error_and_recording_id `{Lib} (client : Client) :
  (forall t v creq resp e,
      sent (Policy.StartTestProxy t (Some v)) = Some creq ->
      client creq = (Some resp, None) ->
      http.Get (http.Response.Header resp) "x-recording-id" <> "" ->
      http.readErr (http.Response.Body resp) = Some e \/
        (http.readErr (http.Response.Body resp) = None /\
         len (http.data (http.Response.Body resp)) > 0 /\
         json_Unmarshal (http.data (http.Response.Body resp)) = Some e) ->
      exec client (Policy.StartTestProxy t (Some v))
        = Done (Some (Policy.withRecordingId
                        (http.Get (http.Response.Header resp) "x-recording-id") v),
                Some e)) /\
  (forall t v v' e,
      exec client (Policy.StartTestProxy t (Some v)) = Done (Some v', Some e) ->
      v' = v \/
      exists creq resp,
        sent (Policy.StartTestProxy t (Some v)) = Some creq /\
        client creq = (Some resp, None) /\
        http.Get (http.Response.Header resp) "x-recording-id" <> "" /\
        v' = Policy.withRecordingId (http.Get (http.Response.Header resp) "x-recording-id") v /\
        (http.readErr (http.Response.Body resp) = Some e \/
         (http.readErr (http.Response.Body resp) = None /\
          len (http.data (http.Response.Body resp)) > 0 /\
          json_Unmarshal (http.data (http.Response.Body resp)) = Some e))) /\
  (forall t v v',
      exec client (Policy.StartTestProxy t (Some v)) = Done (Some v', None) ->
      exists creq resp,
        sent (Policy.StartTestProxy t (Some v)) = Some creq /\
        client creq = (Some resp, None) /\
        http.Get (http.Response.Header resp) "x-recording-id" <> "" /\
        v' = Policy.withRecordingId (http.Get (http.Response.Header resp) "x-recording-id") v) /\
  (forall t v creq resp e,
      sent (Wrapper.StartTestProxy t (Some v)) = Some creq ->
      client creq = (Some resp, None) ->
      http.Get (http.Response.Header resp) "x-recording-id" <> "" ->
      http.readErr (http.Response.Body resp) = Some e \/
        (http.readErr (http.Response.Body resp) = None /\
         len (http.data (http.Response.Body resp)) > 0 /\
         json_Unmarshal (http.data (http.Response.Body resp)) = Some e) ->
      exec client (Wrapper.StartTestProxy t (Some v))
        = Done (Some (Wrapper.withRecordingId
                        (http.Get (http.Response.Header resp) "x-recording-id") v),
                Some e)) /\
  (forall t v v' e,
      exec client (Wrapper.StartTestProxy t (Some v)) = Done (Some v', Some e) ->
      v' = v \/
      exists creq resp,
        sent (Wrapper.StartTestProxy t (Some v)) = Some creq /\
        client creq = (Some resp, None) /\
        http.Get (http.Response.Header resp) "x-recording-id" <> "" /\
        v' = Wrapper.withRecordingId (http.Get (http.Response.Header resp) "x-recording-id") v /\
        (http.readErr (http.Response.Body resp) = Some e \/
         (http.readErr (http.Response.Body resp) = None /\
          len (http.data (http.Response.Body resp)) > 0 /\
          json_Unmarshal (http.data (http.Response.Body resp)) = Some e))) /\
  (forall t v v',
      exec client (Wrapper.StartTestProxy t (Some v)) = Done (Some v', None) ->
      exists creq resp,
        sent (Wrapper.StartTestProxy t (Some v)) = Some creq /\
        client creq = (Some resp, None) /\
        http.Get (http.Response.Header resp) "x-recording-id" <> "" /\
        v' = Wrapper.withRecordingId (http.Get (http.Response.Header resp) "x-recording-id") v).
Proof.
  split; [|split; [|split; [|split; [|split]]]].
  - intros t v creq resp e Hs Hc Hid Hlate.
    rewrite (Policy_Start_exec client t v creq Hs), Hc. cbn [fst snd]. cbv zeta.
    destruct (decide _) as [He|_]; [contradiction|].
    destruct Hlate as [Hre|(Hre & Hl & Hj)]; rewrite Hre; [reflexivity|].
    destruct (decide _) as [_|Hn]; [|contradiction]. rewrite Hj. reflexivity.
  - intros t v v' e Hx.
    destruct (sent (Policy.StartTestProxy t (Some v))) as [creq|] eqn:Hs.
    + rewrite (Policy_Start_exec client t v creq Hs) in Hx.
      destruct (client creq) as [[resp|] [err|]] eqn:Hc; cbn [fst snd] in Hx;
        try (injection Hx as <- <-; left; reflexivity); try discriminate.
      cbv zeta in Hx.
      destruct (decide _) as [Hid|Hid].
      * left. destruct (http.readErr _); injection Hx as <- _; reflexivity.
      * right. exists creq, resp. split; [reflexivity|]. split; [exact Hc|].
        split; [exact Hid|].
        destruct (http.readErr _) as [re|] eqn:Hre.
        -- injection Hx as <- <-. split; [reflexivity | left; reflexivity].
        -- destruct (decide _) as [Hl|_]; [|discriminate].
           injection Hx as <- Hj.
           split; [reflexivity | right; split; [reflexivity | split; [exact Hl | exact Hj]]].
    + destruct (Policy_Start_unsent client t v Hs) as [e0 He0].
      rewrite He0 in Hx. injection Hx as <- _. left. reflexivity.
  - intros t v v' Hx.
    destruct (sent (Policy.StartTestProxy t (Some v))) as [creq|] eqn:Hs.
    + rewrite (Policy_Start_exec client t v creq Hs) in Hx.
      destruct (client creq) as [[resp|] [err|]] eqn:Hc; cbn [fst snd] in Hx;
        try discriminate.
      cbv zeta in Hx.
      destruct (decide _) as [Hid|Hid]; [destruct (http.readErr _); discriminate|].
      exists creq, resp. split; [reflexivity|]. split; [exact Hc|].
      split; [exact Hid|].
      destruct (http.readErr _); [discriminate|].
      destruct (decide _); [injection Hx as <- _ | injection Hx as <-]; reflexivity.
    + destruct (Policy_Start_unsent client t v Hs) as [e0 He0].
      rewrite He0 in Hx. discriminate.
  - intros t v creq resp e Hs Hc Hid Hlate.
    rewrite (Wrapper_Start_exec client t v creq Hs), Hc. cbn [fst snd]. cbv zeta.
    destruct (decide _) as [He|_]; [contradiction|].
    destruct Hlate as [Hre|(Hre & Hl & Hj)]; rewrite Hre; [reflexivity|].
    destruct (decide _) as [_|Hn]; [|contradiction]. rewrite Hj. reflexivity.
  - intros t v v' e Hx.
    destruct (sent (Wrapper.StartTestProxy t (Some v))) as [creq|] eqn:Hs.
    + rewrite (Wrapper_Start_exec client t v creq Hs) in Hx.
      destruct (client creq) as [[resp|] [err|]] eqn:Hc; cbn [fst snd] in Hx;
        try (injection Hx as <- <-; left; reflexivity); try discriminate.
      cbv zeta in Hx.
      destruct (decide _) as [Hid|Hid].
      * left. destruct (http.readErr _); injection Hx as <- _; reflexivity.
      * right. exists creq, resp. split; [reflexivity|]. split; [exact Hc|].
        split; [exact Hid|].
        destruct (http.readErr _) as [re|] eqn:Hre.
        -- injection Hx as <- <-. split; [reflexivity | left; reflexivity].
        -- destruct (decide _) as [Hl|_]; [|discriminate].
           injection Hx as <- Hj.
           split; [reflexivity | right; split; [reflexivity | split; [exact Hl | exact Hj]]].
    + destruct (Wrapper_Start_unsent client t v Hs) as [e0 He0].
      rewrite He0 in Hx. injection Hx as <- _. left. reflexivity.
  - intros t v v' Hx.
    destruct (sent (Wrapper.StartTestProxy t (Some v))) as [creq|] eqn:Hs.
    + rewrite (Wrapper_Start_exec client t v creq Hs) in Hx.
      destruct (client creq) as [[resp|] [err|]] eqn:Hc; cbn [fst snd] in Hx;
        try discriminate.
      cbv zeta in Hx.
      destruct (decide _) as [Hid|Hid]; [destruct (http.readErr _); discriminate|].
      exists creq, resp. split; [reflexivity|]. split; [exact Hc|].
      split; [exact Hid|].
      destruct (http.readErr _); [discriminate|].
      destruct (decide _); [injection Hx as <- _ | injection Hx as <-]; reflexivity.
    + destruct (Wrapper_Start_unsent client t v Hs) as [e0 He0].
      rewrite He0 in Hx. discriminate.
Qed.

Lemma start_error_witness :
  (http.Get Fixture.idHeader "x-recording-id" <> "" /\
   len "oops" > 0 /\
   @json_Unmarshal Fixture.lib "oops"
     = Some (jsonError "invalid character 'o' looking for beginning of value")) /\
  Policy.RecordingId Fixture.policyFresh = "" /\
  exec (Fixture.answer 200 Fixture.idHeader (http.mkBody "oops" None))
       (@Policy.StartTestProxy Fixture.lib Fixture.t0 (Some Fixture.policyFresh))
    = Done (Some (Policy.withRecordingId "abc123" Fixture.policyFresh),
            Some (jsonError "invalid character 'o' looking for beginning of value")).
Proof.
  assert (Hid : http.Get Fixture.idHeader "x-recording-id" <> "")
    by (vm_compute; discriminate).
  assert (Hl : len "oops" > 0) by reflexivity.
  split; [split; [exact Hid | split; [exact Hl | reflexivity]]|].
  split; [reflexivity|].
  destruct (sent (@Policy.StartTestProxy Fixture.lib Fixture.t0 (Some Fixture.policyFresh)))
    as [creq|] eqn:Hs; [|vm_compute in Hs; discriminate].
  exact (proj1 (@start_error_and_recording_id Fixture.lib
                  (Fixture.answer 200 Fixture.idHeader (http.mkBody "oops" None)))
           Fixture.t0 Fixture.policyFresh creq
           (http.Response.mk 200 Fixture.idHeader (http.mkBody "oops" None) 1)
           (jsonError "invalid character 'o' looking for beginning of value")
           Hs eq_refl Hid (or_intror (conj eq_refl (conj Hl eq_refl)))).
Defined.

(** ** Stop *)

(** C5: the stop of [testproxytransport.go] sends POST
    https://localhost:5001/record/stop with [x-recording-id: abc123] and
    [x-recording-save: true]; the stop of the [TestProxy] and
    [TestProxyVariable] variants sends the same POST with the recording id
    but without any [x-recording-save] header. *)
Theorem stop_request_save_directive :
  (exists creq,
      sent (@Transport.StopTestProxy Fixture.lib (Some Fixture.variables0)) = Some creq /\
      ClientRequest.Method creq = "POST" /\
      ClientRequest.Target creq = "https://localhost:5001/record/stop" /\
      carries (ClientRequest.Header creq) "x-recording-id" "abc123" /\
      carries (ClientRequest.Header creq) "x-recording-save" "true") /\
  (exists creq,
      sent (@Policy.StopTestProxy Fixture.lib Fixture.t0 (Some Fixture.policy0)) = Some creq /\
      ClientRequest.Method creq = "POST" /\
      ClientRequest.Target creq = "https://localhost:5001/record/stop" /\
      carries (ClientRequest.Header creq) "x-recording-id" "abc123" /\
      ClientRequest.Header creq !! textproto.CanonicalMIMEHeaderKey "x-recording-save" = None /\
      http.Get (ClientRequest.Header creq) "x-recording-save" = "") /\
  (exists creq,
      sent (@Wrapper.StopTestProxy Fixture.lib Fixture.t0 (Some Fixture.wrapper0)) = Some creq /\
      ClientRequest.Method creq = "POST" /\
      ClientRequest.Target creq = "https://localhost:5001/record/stop" /\
      carries (ClientRequest.Header creq) "x-recording-id" "abc123" /\
      ClientRequest.Header creq !! textproto.CanonicalMIMEHeaderKey "x-recording-save" = None /\
      http.Get (ClientRequest.Header creq) "x-recording-save" = "").
Proof.
  repeat split; eexists;
    (split; [vm_compute; reflexivity|]); unfold carries; repeat split; vm_compute; reflexivity.
Qed.

(** C7: when the client fails without a response, the stop of the [TestProxy]
    and [TestProxyVariable] variants panics on the nil response instead of
    returning the error; the stop of [testproxytransport.go] returns the
    error as it is. *)
Theorem stop_on_transport_error (e : error) :
  exec (fun _ => (None, Some e))
       (@Policy.StopTestProxy Fixture.lib Fixture.t0 (Some Fixture.policy0))
    = Crashed nilDeref /\
  exec (fun _ => (None, Some e))
       (@Wrapper.StopTestProxy Fixture.lib Fixture.t0 (Some Fixture.wrapper0))
    = Crashed nilDeref /\
  exec (fun _ => (None, Some e))
       (@Transport.StopTestProxy Fixture.lib (Some Fixture.variables0))
    = Done (Some e).
Proof. repeat split. Qed.

(** C6, as stated, fails for the stop of [testproxytransport.go]: the proxy
    answers 500 with body [boom] and stop returns no error. *)
Lemma stop_status_counterexample :
  exec (Fixture.answer 500 ∅ (http.mkBody "boom" None))
       (@Transport.StopTestProxy Fixture.lib (Some Fixture.variables0))
    = Done None.
Proof. reflexivity. Qed.

(** C6, amended: in the [TestProxy] and [TestProxyVariable] variants, when the
    proxy responds, stop returns no error for status 200 and, for any other
    status, an error whose text contains the response body, or the text of
    the read error when the body cannot be read.  The stop of
    [testproxytransport.go] does not look at the response: it returns the
    client's error, so no error whenever the proxy responded. *)
Theorem stop_status_handling `{Lib} (client : Client) (resp : http.Response.t) :
  (forall t v creq,
      sent (Policy.StopTestProxy t (Some v)) = Some creq ->
      client creq = (Some resp, None) ->
      (http.Response.StatusCode resp = 200 ->
       exec client (Policy.StopTestProxy t (Some v)) = Done None) /\
      (http.Response.StatusCode resp <> 200 ->
       exists e,
         exec client (Policy.StopTestProxy t (Some v)) = Done (Some e) /\
         Contains (Error e)
           match http.readErr (http.Response.Body resp) with
           | None => http.data (http.Response.Body resp)
           | Some re => Error re
           end)) /\
  (forall t v creq,
      sent (Wrapper.StopTestProxy t (Some v)) = Some creq ->
      client creq = (Some resp, None) ->
      (http.Response.StatusCode resp = 200 ->
       exec client (Wrapper.StopTestProxy t (Some v)) = Done None) /\
      (http.Response.StatusCode resp <> 200 ->
       exists e,
         exec client (Wrapper.StopTestProxy t (Some v)) = Done (Some e) /\
         Contains (Error e)
           match http.readErr (http.Response.Body resp) with
           | None => http.data (http.Response.Body resp)
           | Some re => Error re
           end)) /\
  (forall v creq,
      sent (Transport.StopTestProxy (Some v)) = Some creq ->
      client creq = (Some resp, None) ->
      exec client (Transport.StopTestProxy (Some v)) = Done None).
Proof.
  split; [|split].
  - intros t v creq Hs Hc.
    rewrite (Policy_Stop_exec client t v creq Hs), Hc. cbn [fst snd].
    split; intros Hst.
    + destruct (decide _) as [Hn|_]; [contradiction | reflexivity].
    + destruct (decide _) as [_|Hn]; [|contradiction].
      destruct (http.readErr _); eexists; (split; [reflexivity|]); apply Contains_suffix.
  - intros t v creq Hs Hc.
    rewrite (Wrapper_Stop_exec client t v creq Hs), Hc. cbn [fst snd].
    split; intros Hst.
    + destruct (decide _) as [Hn|_]; [contradiction | reflexivity].
    + destruct (decide _) as [_|Hn]; [|contradiction].
      destruct (http.readErr _); eexists; (split; [reflexivity|]); apply Contains_suffix.
  - intros v creq Hs Hc. rewrite (Transport_Stop_exec client v creq Hs), Hc. reflexivity.
Qed.

Lemma stop_status_witness :
  (sent (@Policy.StopTestProxy Fixture.lib Fixture.t0 (Some Fixture.policy0))
     = Some (ClientRequest.mk "POST" "https://localhost:5001/record/stop"
               (http.Set_ ∅ "x-recording-id" "abc123") None 0) /\
   http.Response.StatusCode (http.Response.mk 500 ∅ (http.mkBody "boom" None) 1) <> 200) /\
  exists e,
    exec (Fixture.answer 500 ∅ (http.mkBody "boom" None))
         (@Policy.StopTestProxy Fixture.lib Fixture.t0 (Some Fixture.policy0)) = Done (Some e) /\
    Contains (Error e) "boom".
Proof.
  split; [split; [reflexivity | discriminate]|].
  apply (proj2 (proj1 (@stop_status_handling Fixture.lib
                         (Fixture.answer 500 ∅ (http.mkBody "boom" None))
                         (http.Response.mk 500 ∅ (http.mkBody "boom" None) 1))
                  Fixture.t0 Fixture.policy0
                  (ClientRequest.mk "POST" "https://localhost:5001/record/stop"
                     (http.Set_ ∅ "x-recording-id" "abc123") None 0)
                  eq_refl eq_refl)).
  discriminate.
Defined.

(** ** Scheme selection *)

(** C8, as stated, fails for [TestProxy]: with port 8080 its scheme is still
    https. *)
Lemma scheme_counterexample :
  Policy.Port Fixture.policy8080 <> 5001 /\
  Policy.scheme Fixture.policy8080 = "https" /\
  Policy.scheme Fixture.policy8080 <> "http".
Proof. repeat split; discriminate. Qed.

(** C8, amended: [TestProxyVariable] uses https when the port is 5001 and http
    for every other port, in the base URL of start and stop and in the
    forwarded URL of [Do] alike; [TestProxy] uses https in all three whatever
    the port; the start and stop of [testproxytransport.go] always target
    https. *)
Theorem scheme_selection `{Lib} :
  (forall v : Wrapper.TestProxyVariable,
      (Wrapper.Port v = 5001 -> Wrapper.scheme v = "https") /\
      (Wrapper.Port v <> 5001 -> Wrapper.scheme v = "http") /\
      Wrapper.baseURL v
        = Wrapper.scheme v +:+ "://" +:+ Wrapper.Host v +:+ ":" +:+ pretty (Wrapper.Port v) /\
      (forall t creq, sent (Wrapper.StartTestProxy t (Some v)) = Some creq ->
         ClientRequest.Target creq = Wrapper.baseURL v +:+ "/" +:+ Wrapper.Mode v +:+ "/start") /\
      (forall t creq, sent (Wrapper.StopTestProxy t (Some v)) = Some creq ->
         ClientRequest.Target creq = Wrapper.baseURL v +:+ "/" +:+ Wrapper.Mode v +:+ "/stop") /\
      (forall req s r u,
         reqs s !! req = Some r -> urls s !! http.Request.URL r = Some u ->
         exists u1, forwardedURL (Wrapper.Do v req) s = Some u1 /\
                    url.Scheme u1 = Wrapper.scheme v)) /\
  (forall v : Policy.TestProxy,
      Policy.scheme v = "https" /\
      Policy.baseURL v = "https://" +:+ Policy.Host v +:+ ":" +:+ pretty (Policy.Port v) /\
      (forall t creq, sent (Policy.StartTestProxy t (Some v)) = Some creq ->
         ClientRequest.Target creq = Policy.baseURL v +:+ "/" +:+ Policy.Mode v +:+ "/start") /\
      (forall t creq, sent (Policy.StopTestProxy t (Some v)) = Some creq ->
         ClientRequest.Target creq = Policy.baseURL v +:+ "/" +:+ Policy.Mode v +:+ "/stop") /\
      (forall req s r u,
         reqs s !! req = Some r -> urls s !! http.Request.URL r = Some u ->
         exists u1, forwardedURL (Policy.Do v req) s = Some u1 /\
                    url.Scheme u1 = "https")) /\
  (forall v : Transport.TestProxyVariables,
      (forall creq, sent (Transport.StartTestProxy (Some v)) = Some creq ->
         ClientRequest.Target creq
           = "https://" +:+ Transport.Host v +:+ ":" +:+ pretty (Transport.Port v)
             +:+ "/" +:+ Transport.Mode v +:+ "/start") /\
      (forall creq, sent (Transport.StopTestProxy (Some v)) = Some creq ->
         ClientRequest.Target creq
           = "https://" +:+ Transport.Host v +:+ ":" +:+ pretty (Transport.Port v)
             +:+ "/" +:+ Transport.Mode v +:+ "/stop")).
Proof.
  split; [|split].
  - intros v. split; [|split; [|split; [|split; [|split]]]].
    + intros Hp. unfold Wrapper.scheme. destruct (decide _); [reflexivity | contradiction].
    + intros Hp. unfold Wrapper.scheme. destruct (decide _); [contradiction | reflexivity].
    + reflexivity.
    + intros t creq Hs. apply Wrapper_Start_sent in Hs as (_ & m & _ & ->). reflexivity.
    + intros t creq Hs. apply Wrapper_Stop_sent in Hs as ->. reflexivity.
    + intros req s r u Hr Hu.
      destruct (Wrapper_Do_behaves req s r u Hr Hu v) as [Hf _].
      apply forwarded_views in Hf as [_ Hv]; [|reflexivity].
      eexists. split; [exact Hv | reflexivity].
  - intros v. split; [|split; [|split; [|split]]].
    + reflexivity.
    + reflexivity.
    + intros t creq Hs. apply Policy_Start_sent in Hs as (_ & m & _ & ->). reflexivity.
    + intros t creq Hs. apply Policy_Stop_sent in Hs as ->. reflexivity.
    + intros req s r u Hr Hu.
      destruct (Policy_Do_behaves req s r u Hr Hu v) as [Hf _].
      apply forwarded_views in Hf as [_ Hv]; [|reflexivity].
      eexists. split; [exact Hv | reflexivity].
  - intros v. split.
    + intros creq. unfold Transport.StartTestProxy, NewRequest.
      destruct (url_Parse _) as [e|]; [discriminate|].
      destruct (json_Marshal _) as [m [e|]]; [discriminate|].
      cbn. intros [= <-]. reflexivity.
    + intros creq Hs. apply Transport_Stop_sent in Hs as ->. reflexivity.
Qed.

Lemma scheme_selection_witness :
  Wrapper.Port Fixture.wrapper5000 <> 5001 /\
  Wrapper.scheme Fixture.wrapper5000 = "http".
Proof.
  split; [discriminate|].
  apply (proj1 (proj2 (proj1 (@scheme_selection Fixture.lib) Fixture.wrapper5000))).
  discriminate.
Defined.

(** * Further properties *)

(** ** Splitting and trimming *)

Lemma append_cons (c : ascii) (a b : string) : String c a +:+ b = String c (a +:+ b).
Proof. reflexivity. Qed.

Lemma count_append (c : ascii) (a b : string) :
  count c (a +:+ b) = (count c a + count c b)%nat.
Proof.
  induction a as [|d a IH]; [reflexivity|].
  rewrite append_cons. cbn [count]. rewrite IH. lia.
Qed.

Lemma Split_nonempty (s : string) (sep : ascii) : gostrings.Split s sep <> [].
Proof.
  destruct s as [|c r]; cbn [gostrings.Split]; [discriminate|].
  destruct (Ascii.eqb c sep); [discriminate|].
  destruct (gostrings.Split r sep); discriminate.
Qed.

Lemma Split_length (s : string) (sep : ascii) :
  length (gostrings.Split s sep) = S (count sep s).
Proof.
  induction s as [|c r IH]; [reflexivity|].
  cbn [gostrings.Split count].
  destruct (Ascii.eqb c sep); cbn [length]; [rewrite IH; reflexivity|].
  destruct (gostrings.Split r sep) as [|p ps] eqn:E; cbn [length] in *; lia.
Qed.

Lemma Split_whole (s : string) (sep : ascii) :
  count sep s = 0%nat -> gostrings.Split s sep = [s].
Proof.
  induction s as [|c r IH]; [reflexivity|].
  cbn [gostrings.Split count].
  destruct (Ascii.eqb c sep); [discriminate|].
  intros Hc. rewrite IH by exact Hc. reflexivity.
Qed.

Lemma Split_at (a b : string) (sep : ascii) :
  count sep a = 0%nat ->
  gostrings.Split (a +:+ String sep b) sep = a :: gostrings.Split b sep.
Proof.
  induction a as [|c r IH].
  - intros _. change ("" +:+ String sep b) with (String sep b).
    cbn [gostrings.Split]. rewrite Ascii.eqb_refl. reflexivity.
  - cbn [count]. rewrite append_cons. cbn [gostrings.Split].
    destruct (Ascii.eqb c sep); [discriminate|].
    intros Hc. rewrite IH by exact Hc. reflexivity.
Qed.

Lemma length_append (a b : string) :
  String.length (a +:+ b) = (String.length a + String.length b)%nat.
Proof.
  induction a as [|c a IH]; [reflexivity|].
  rewrite append_cons. cbn [String.length]. rewrite IH. reflexivity.
Qed.

Lemma substring_prefix (a b : string) :
  String.substring 0 (String.length a) (a +:+ b) = a.
Proof.
  induction a as [|c a IH].
  - destruct b; reflexivity.
  - rewrite append_cons. cbn [String.length String.substring]. rewrite IH. reflexivity.
Qed.

Lemma substring_suffix (a b : string) :
  String.substring (String.length a) (String.length b) (a +:+ b) = b.
Proof.
  induction a as [|c a IH].
  - change ("" +:+ b) with b. cbn [String.length].
    induction b as [|d b IHb]; [reflexivity|].
    cbn [String.length String.substring]. rewrite IHb. reflexivity.
  - rewrite append_cons. cbn [String.length String.substring]. exact IH.
Qed.

(** Trimming takes off exactly the suffix that was put on. *)
Lemma TrimSuffix_append (a suffix : string) :
  gostrings.TrimSuffix (a +:+ suffix) suffix = a.
Proof.
  unfold gostrings.TrimSuffix, gostrings.HasSuffix.
  rewrite length_append.
  replace (String.length a + String.length suffix - String.length suffix)%nat
    with (String.length a) by lia.
  rewrite substring_suffix, String.eqb_refl, substring_prefix.
  destruct (String.length suffix <=? String.length a + String.length suffix)%nat eqn:E;
    [reflexivity|].
  apply Nat.leb_gt in E. lia.
Qed.

Lemma TrimSuffix_absent (a suffix : string) :
  gostrings.HasSuffix a suffix = false -> gostrings.TrimSuffix a suffix = a.
Proof. intros Hs. unfold gostrings.TrimSuffix. rewrite Hs. reflexivity. Qed.

(** ** [Load] *)

Lemma Split_unlines (l : string) (ls : list string) :
  Forall (fun x => count newline x = 0%nat) (l :: ls) ->
  gostrings.Split (unlines (l :: ls)) newline = l :: ls.
Proof.
  revert l. induction ls as [|l' ls IH]; intros l Hall.
  - cbn [unlines]. apply Split_whole. inversion Hall; assumption.
  - inversion Hall as [|? ? Hl Hrest]; subst.
    change (unlines (l :: l' :: ls)) with (l +:+ String newline (unlines (l' :: ls))).
    rewrite Split_at by exact Hl. rewrite IH by exact Hrest. reflexivity.
Qed.

Lemma envLine_no_newline (crlf : bool) (kv : string * string) :
  storable kv -> count newline (envLine crlf kv) = 0%nat.
Proof.
  intros (_ & Hk & _ & Hv & _). unfold envLine.
  rewrite count_append, Hk, append_cons. cbn [count]. rewrite count_append, Hv.
  destruct crlf; reflexivity.
Qed.

Lemma envLine_splits (crlf : bool) (kv : string * string) :
  storable kv ->
  gostrings.Split (envLine crlf kv) space
    = [fst kv; snd kv +:+ (if crlf then String cr EmptyString else EmptyString)].
Proof.
  intros (Hk & _ & Hv & _ & _). unfold envLine.
  change (fst kv +:+ String space (snd kv) +:+ (if crlf then String cr "" else ""))
    with (fst kv +:+ String space (snd kv +:+ (if crlf then String cr "" else ""))).
  rewrite Split_at by exact Hk. rewrite Split_whole; [reflexivity|].
  rewrite count_append, Hv. destruct crlf; reflexivity.
Qed.

Lemma envLine_trims (crlf : bool) (kv : string * string) :
  storable kv ->
  gostrings.TrimSuffix (snd kv +:+ (if crlf then String cr EmptyString else EmptyString))
                       (String cr EmptyString) = snd kv.
Proof.
  intros (_ & _ & _ & _ & Hs). destruct crlf.
  - apply TrimSuffix_append.
  - rewrite append_empty_r. apply TrimSuffix_absent, Hs.
Qed.

Section LoadProperties.
Context `{OS}.

(** what [Load] does with one line *)
Let step (env : Environ) (line : string) : Environ :=
  match gostrings.Split line space with
  | [k; v] => Setenv env k (gostrings.TrimSuffix v (String cr EmptyString))
  | _ => env
  end.

Lemma Load_unfold (root envFile : string) (env : Environ) :
  ReadFile root = inl envFile ->
  parse.Load root env = (foldl step env (gostrings.Split envFile newline), None).
Proof. intros Hr. unfold parse.Load. rewrite Hr. reflexivity. Qed.

Lemma step_envLine (crlf : bool) (kv : string * string) (env : Environ) :
  storable kv -> step env (envLine crlf kv) = Setenv env (fst kv) (snd kv).
Proof.
  intros Hs. unfold step. rewrite (envLine_splits crlf kv Hs), (envLine_trims crlf kv Hs).
  reflexivity.
Qed.

Lemma step_skips (line : string) (env : Environ) :
  count space line <> 1%nat -> step env line = env.
Proof.
  intros Hc. unfold step.
  pose proof (Split_length line space) as Hl.
  destruct (gostrings.Split line space) as [|a [|b [|c rest]]]; try reflexivity.
  cbn [length] in Hl. lia.
Qed.

Lemma foldl_step_envLines (crlf : bool) (kvs : list (string * string)) (env : Environ) :
  Forall storable kvs ->
  foldl step env (map (envLine crlf) kvs)
    = foldl (fun e kv => Setenv e (fst kv) (snd kv)) env kvs.
Proof.
  revert env. induction kvs as [|kv kvs IH]; intros env Hall; [reflexivity|].
  inversion Hall as [|? ? Hkv Hrest]; subst.
  cbn [map foldl]. rewrite (step_envLine crlf kv env Hkv). apply IH, Hrest.
Qed.

(** X1: a file written one variable per line as [KEY VALUE], with LF or with
    CRLF line ends, is read back by [Load] as exactly those assignments, in
    file order, and [Load] returns no error. *)
Theorem Load_reads_back (root : string) (crlf : bool)
    (kvs : list (string * string)) (env : Environ) :
  Forall storable kvs ->
  ReadFile root = inl (unlines (map (envLine crlf) kvs)) ->
  parse.Load root env
    = (foldl (fun e kv => Setenv e (fst kv) (snd kv)) env kvs, None).
Proof.
  intros Hall Hr. rewrite (Load_unfold root _ env Hr). f_equal.
  destruct kvs as [|kv kvs]; [reflexivity|].
  rewrite <- (foldl_step_envLines crlf (kv :: kvs) env Hall).
  cbn [map]. rewrite Split_unlines; [reflexivity|].
  change (Forall (fun x => count newline x = 0%nat) (map (envLine crlf) (kv :: kvs))).
  apply Forall_map. eapply Forall_impl; [exact Hall|].
  intros x Hx. apply envLine_no_newline, Hx.
Qed.

(** X2: when no line of the file has exactly one space in it (blank lines,
    [KEY=VALUE] lines, lines whose value has a space of its own), [Load] sets
    nothing and still returns no error. *)
Theorem Load_skips_malformed_lines (root envFile : string) (env : Environ) :
  ReadFile root = inl envFile ->
  Forall (fun line => count space line <> 1%nat) (gostrings.Split envFile newline) ->
  parse.Load root env = (env, None).
Proof.
  intros Hr Hall. rewrite (Load_unfold root envFile env Hr). f_equal.
  induction Hall as [|line lines Hline _ IH]; [reflexivity|].
  cbn [foldl]. rewrite (step_skips line env Hline). exact IH.
Qed.

(** X3: a line that does not have exactly one space is ignored wherever it
    stands: the file with the line and the file without it load alike. *)
Theorem Load_ignores_inserted_line (root root' : string) (before after : list string)
    (line : string) (env : Environ) :
  Forall (fun x => count newline x = 0%nat) (before ++ line :: after)%list ->
  count space line <> 1%nat ->
  (before ++ after)%list <> [] ->
  ReadFile root = inl (unlines (before ++ line :: after)%list) ->
  ReadFile root' = inl (unlines (before ++ after)%list) ->
  parse.Load root env = parse.Load root' env.
Proof.
  intros Hall Hline Hne Hr Hr'.
  rewrite (Load_unfold root _ env Hr), (Load_unfold root' _ env Hr'). f_equal.
  assert (Hall' : Forall (fun x => count newline x = 0%nat) (before ++ after)%list).
  { apply Forall_app in Hall as [Hb Ha]. apply Forall_app. split; [exact Hb|].
    inversion Ha; assumption. }
  assert (Hs : gostrings.Split (unlines (before ++ line :: after)%list) newline
               = (before ++ line :: after)%list).
  { destruct (before ++ line :: after)%list as [|x xs] eqn:E.
    - destruct before; discriminate.
    - apply Split_unlines. exact Hall. }
  assert (Hs' : gostrings.Split (unlines (before ++ after)%list) newline = (before ++ after)%list).
  { destruct (before ++ after)%list as [|x xs] eqn:E; [contradiction|].
    apply Split_unlines. exact Hall'. }
  rewrite Hs, Hs', !foldl_app. cbn [foldl]. rewrite (step_skips line _ Hline). reflexivity.
Qed.

End LoadProperties.

(** ** More about [Do] *)

Lemma restore_crashes next (rt : RoundTrip) resp s' (sch hst : string) :
  reqs s' !! http.Response.Request resp = None ->
  run next (setURLScheme (http.Response.Request resp) sch;;
            setURLHost (http.Response.Request resp) hst;;
            Return rt) s'
  = Crashed nilDeref.
Proof.
  intros Hn. unfold run, setURLScheme, derefRequest. cbn. rewrite Hn. reflexivity.
Qed.

Lemma url_restored (u : url.URL) (sch hst : string) :
  url.withHost (url.Host u) (url.withScheme (url.Scheme u)
    (url.withHost hst (url.withScheme sch u))) = u.
Proof. destruct u; reflexivity. Qed.

(** X4: when the send primitive fails without a response, [TestProxy.Do] and
    [TestProxyVariable.Do] hand its [(nil, err)] back as it is and write
    nothing more: the store is as the primitive left it, so the request stays
    rewritten for the proxy. *)
Theorem Do_passes_failure_through
    (next : Transporter) (req : loc) (s : Store) (r : http.Request.t) (u : url.URL) :
  reqs s !! req = Some r ->
  urls s !! http.Request.URL r = Some u ->
  (forall tpv : Policy.TestProxy, exists s1,
      forwarded (Policy.Do tpv req) s = Some (req, s1) /\
      forall err s', next req s1 = ((None, err), s') ->
        run next (Policy.Do tpv req) s = Done ((None, err), s')) /\
  (forall tpv : Wrapper.TestProxyVariable, exists s1,
      forwarded (Wrapper.Do tpv req) s = Some (req, s1) /\
      forall err s', next req s1 = ((None, err), s') ->
        run next (Wrapper.Do tpv req) s = Done ((None, err), s')).
Proof.
  intros Hr Hu. split; intros tpv.
  - destruct (Policy_Do_behaves req s r u Hr Hu tpv) as [Hf Hrun].
    eexists. split; [exact Hf|]. intros err s' Hn. rewrite Hrun, Hn. reflexivity.
  - destruct (Wrapper_Do_behaves req s r u Hr Hu tpv) as [Hf Hrun].
    eexists. split; [exact Hf|]. intros err s' Hn. rewrite Hrun, Hn. reflexivity.
Qed.

Lemma Do_passes_failure_through_witness :
  (reqs Fixture.store0 !! 1%positive = Some Fixture.request0 /\
   urls Fixture.store0 !! http.Request.URL Fixture.request0 = Some Fixture.url0) /\
  exists s1,
    forwarded (Wrapper.Do Fixture.wrapper0 1) Fixture.store0 = Some (1%positive, s1) /\
    run Fixture.refused (Wrapper.Do Fixture.wrapper0 1) Fixture.store0
      = Done ((None, Some (netError "dial tcp: connection refused")), s1).
Proof.
  split; [split; reflexivity|].
  destruct (proj2 (Do_passes_failure_through Fixture.refused 1 Fixture.store0
                     Fixture.request0 Fixture.url0 eq_refl eq_refl) Fixture.wrapper0)
    as (s1 & Hf & Hrun).
  exists s1. split; [exact Hf|]. apply Hrun. reflexivity.
Defined.

(** X5: when the primitive answers with a response that refers to the very
    request it was given and leaves the store alone (as [http.Client] does
    without redirects), then after [TestProxy.Do] or [TestProxyVariable.Do]
    every URL in the store is exactly as on entry, while the request itself
    keeps the proxy's host:port in its Host field and keeps the three
    recording headers. *)
Theorem Do_round_trips_the_shared_URL
    (next : Transporter) (req : loc) (s : Store) (r : http.Request.t) (u : url.URL) :
  reqs s !! req = Some r ->
  urls s !! http.Request.URL r = Some u ->
  (forall (tpv : Policy.TestProxy) s1 resp err,
      forwarded (Policy.Do tpv req) s = Some (req, s1) ->
      next req s1 = ((Some resp, err), s1) ->
      http.Response.Request resp = req ->
      exists s2 r2,
        run next (Policy.Do tpv req) s = Done ((Some resp, err), s2) /\
        urls s2 = urls s /\
        reqs s2 !! req = Some r2 /\
        http.Request.Host r2 = Policy.host tpv /\
        recordingHeaders (http.Request.Header r2)
          (url.Scheme u +:+ "://" +:+ url.Host u) (Policy.Mode tpv) (Policy.RecordingId tpv)) /\
  (forall (tpv : Wrapper.TestProxyVariable) s1 resp err,
      forwarded (Wrapper.Do tpv req) s = Some (req, s1) ->
      next req s1 = ((Some resp, err), s1) ->
      http.Response.Request resp = req ->
      exists s2 r2,
        run next (Wrapper.Do tpv req) s = Done ((Some resp, err), s2) /\
        urls s2 = urls s /\
        reqs s2 !! req = Some r2 /\
        http.Request.Host r2 = Wrapper.host tpv /\
        recordingHeaders (http.Request.Header r2)
          (url.Scheme u +:+ "://" +:+ url.Host u) (Wrapper.Mode tpv) (Wrapper.RecordingId tpv)).
Proof.
  intros Hr Hu. split; intros tpv s1 resp err Hf Hn Hreq.
  - destruct (Policy_Do_behaves req s r u Hr Hu tpv) as [Hf' Hrun].
    rewrite Hf' in Hf. injection Hf as <-.
    rewrite Hrun, Hn. cbn [fst].
    erewrite restore_runs;
      [| rewrite Hreq; cbn [reqs]; apply lookup_insert_eq
       | cbn [urls http.Request.URL http.Request.withHeader http.Request.withHost];
         apply lookup_insert_eq].
    do 2 eexists. split; [reflexivity|]. cbn [reqs urls].
    split; [|split; [apply lookup_insert_eq | split; [reflexivity|]]].
    + cbn [http.Request.URL http.Request.withHeader http.Request.withHost].
      rewrite insert_insert_eq, url_restored. apply insert_id, Hu.
    + apply recordingHeaders_upstream_first.
  - destruct (Wrapper_Do_behaves req s r u Hr Hu tpv) as [Hf' Hrun].
    rewrite Hf' in Hf. injection Hf as <-.
    rewrite Hrun, Hn. cbn [fst].
    erewrite restore_runs;
      [| rewrite Hreq; cbn [reqs]; apply lookup_insert_eq
       | cbn [urls http.Request.URL http.Request.withHeader http.Request.withHost];
         apply lookup_insert_eq].
    do 2 eexists. split; [reflexivity|]. cbn [reqs urls].
    split; [|split; [apply lookup_insert_eq | split; [reflexivity|]]].
    + cbn [http.Request.URL http.Request.withHeader http.Request.withHost].
      rewrite insert_insert_eq, url_restored. apply insert_id, Hu.
    + apply recordingHeaders_upstream_first.
Qed.

(** X6: when the primitive answers with a response whose request reference
    is nil, [TestProxy.Do] and [TestProxyVariable.Do] panic in the restoring
    step: they test the response for nil, not its request. *)
Theorem Do_panics_on_response_without_request
    (next : Transporter) (req : loc) (s : Store) (r : http.Request.t) (u : url.URL) :
  reqs s !! req = Some r ->
  urls s !! http.Request.URL r = Some u ->
  (forall (tpv : Policy.TestProxy) s1 resp err s',
      forwarded (Policy.Do tpv req) s = Some (req, s1) ->
      next req s1 = ((Some resp, err), s') ->
      reqs s' !! http.Response.Request resp = None ->
      run next (Policy.Do tpv req) s = Crashed nilDeref) /\
  (forall (tpv : Wrapper.TestProxyVariable) s1 resp err s',
      forwarded (Wrapper.Do tpv req) s = Some (req, s1) ->
      next req s1 = ((Some resp, err), s') ->
      reqs s' !! http.Response.Request resp = None ->
      run next (Wrapper.Do tpv req) s = Crashed nilDeref).
Proof.
  intros Hr Hu. split; intros tpv s1 resp err s' Hf Hn Hnone.
  - destruct (Policy_Do_behaves req s r u Hr Hu tpv) as [Hf' Hrun].
    rewrite Hf' in Hf. injection Hf as <-.
    rewrite Hrun, Hn. cbn [fst]. apply restore_crashes, Hnone.
  - destruct (Wrapper_Do_behaves req s r u Hr Hu tpv) as [Hf' Hrun].
    rewrite Hf' in Hf. injection Hf as <-.
    rewrite Hrun, Hn. cbn [fst]. apply restore_crashes, Hnone.
Qed.

(** Setting the three headers again to the same values changes nothing. *)
Lemma Set3_again (h : http.Header) (k1 v1 k2 v2 k3 v3 : string) :
  let h1 := http.Set_ (http.Set_ (http.Set_ h k1 v1) k2 v2) k3 v3 in
  http.Set_ (http.Set_ (http.Set_ h1 k1 v1) k2 v2) k3 v3 = h1.
Proof.
  intros h1. subst h1. unfold http.Set_. apply map_eq. intros k.
  rewrite !lookup_insert. repeat case_decide; reflexivity.
Qed.

Section DoAgain.
Context (next : Transporter) (req : loc) (s : Store) (r : http.Request.t) (u : url.URL).
Hypothesis Hreq : reqs s !! req = Some r.
Hypothesis Hurl : urls s !! http.Request.URL r = Some u.

(** X7: [TestProxyTransport.Do] never undoes its rewrite, so sending the same
    request through it a second time (a retry) names the proxy's own
    host:port as the upstream base URI: the service's host is lost. *)
Theorem Transport_Do_again_names_the_proxy (tpt : Transport.TestProxyTransport) :
  (forall l st, snd (next l st) = st) ->
  exists rt s2 r2,
    run next (Transport.Do tpt req) s = Done (rt, s2) /\
    forwardedRequest (Transport.Do tpt req) s2 = Some r2 /\
    carries (http.Request.Header r2) "x-recording-upstream-base-uri"
      (url.Scheme u +:+ "://" +:+ Transport.host tpt +:+ ":" +:+ pretty (Transport.port tpt)).
Proof.
  intros Hpure.
  destruct (Transport_Do_behaves req s r u Hreq Hurl tpt) as [_ Hrun].
  rewrite Hrun.
  match goal with |- context [next req ?s1] =>
    pose proof (Hpure req s1) as Hs; destruct (next req s1) as [rt s'] end.
  cbn [snd] in Hs. subst s'.
  match goal with |- context [Done (rt, ?s1)] =>
    destruct (Transport_Do_behaves req s1 _ _
                (lookup_insert_eq _ _ _) (lookup_insert_eq _ _ _) tpt) as [Hf _] end.
  apply forwarded_views in Hf as [Hq _]; [|reflexivity].
  do 3 eexists. split; [reflexivity|]. split; [exact Hq|].
  apply recordingHeaders_id_first.
Qed.

(** X8: after a send that failed without a response, [TestProxy.Do] and
    [TestProxyVariable.Do] leave the request rewritten; sending it through
    [Do] again names the proxy itself, scheme and host:port, as the upstream
    base URI. *)
Theorem Do_again_after_failure_names_the_proxy :
  (forall (tpv : Policy.TestProxy) s1 err,
      forwarded (Policy.Do tpv req) s = Some (req, s1) ->
      next req s1 = ((None, err), s1) ->
      run next (Policy.Do tpv req) s = Done ((None, err), s1) /\
      exists r2,
        forwardedRequest (Policy.Do tpv req) s1 = Some r2 /\
        carries (http.Request.Header r2) "x-recording-upstream-base-uri"
          (Policy.scheme tpv +:+ "://" +:+ Policy.host tpv)) /\
  (forall (tpv : Wrapper.TestProxyVariable) s1 err,
      forwarded (Wrapper.Do tpv req) s = Some (req, s1) ->
      next req s1 = ((None, err), s1) ->
      run next (Wrapper.Do tpv req) s = Done ((None, err), s1) /\
      exists r2,
        forwardedRequest (Wrapper.Do tpv req) s1 = Some r2 /\
        carries (http.Request.Header r2) "x-recording-upstream-base-uri"
          (Wrapper.scheme tpv +:+ "://" +:+ Wrapper.host tpv)).
Proof.
  split; intros tpv s1 err Hf Hn.
  - destruct (Policy_Do_behaves req s r u Hreq Hurl tpv) as [Hf' Hrun].
    rewrite Hf' in Hf. injection Hf as <-.
    split; [rewrite Hrun, Hn; reflexivity|].
    match goal with |- context [forwardedRequest _ ?s1] =>
      destruct (Policy_Do_behaves req s1 _ _
                  (lookup_insert_eq _ _ _) (lookup_insert_eq _ _ _) tpv) as [Hf2 _] end.
    apply forwarded_views in Hf2 as [Hq _]; [|reflexivity].
    eexists. split; [exact Hq|]. apply recordingHeaders_upstream_first.
  - destruct (Wrapper_Do_behaves req s r u Hreq Hurl tpv) as [Hf' Hrun].
    rewrite Hf' in Hf. injection Hf as <-.
    split; [rewrite Hrun, Hn; reflexivity|].
    match goal with |- context [forwardedRequest _ ?s1] =>
      destruct (Wrapper_Do_behaves req s1 _ _
                  (lookup_insert_eq _ _ _) (lookup_insert_eq _ _ _) tpv) as [Hf2 _] end.
    apply forwarded_views in Hf2 as [Hq _]; [|reflexivity].
    eexists. split; [exact Hq|]. apply recordingHeaders_upstream_first.
Qed.

End DoAgain.

Section DoStable.
Context (next : Transporter) (req : loc) (s : Store) (r : http.Request.t) (u : url.URL).
Hypothesis Hreq : reqs s !! req = Some r.
Hypothesis Hurl : urls s !! http.Request.URL r = Some u.

(** X9: with a primitive that answers for the very request it was given and
    leaves the store alone, sending the same request twice through
    [TestProxy.Do] or [TestProxyVariable.Do] forwards the same request both
    times: the restored URL makes the second rewrite start from the
    service's scheme and host again. *)
Theorem Do_again_forwards_the_same :
  (forall (tpv : Policy.TestProxy) s1 resp err,
      forwarded (Policy.Do tpv req) s = Some (req, s1) ->
      next req s1 = ((Some resp, err), s1) ->
      http.Response.Request resp = req ->
      exists s2,
        run next (Policy.Do tpv req) s = Done ((Some resp, err), s2) /\
        forwarded (Policy.Do tpv req) s2 = Some (req, s1)) /\
  (forall (tpv : Wrapper.TestProxyVariable) s1 resp err,
      forwarded (Wrapper.Do tpv req) s = Some (req, s1) ->
      next req s1 = ((Some resp, err), s1) ->
      http.Response.Request resp = req ->
      exists s2,
        run next (Wrapper.Do tpv req) s = Done ((Some resp, err), s2) /\
        forwarded (Wrapper.Do tpv req) s2 = Some (req, s1)).
Proof.
  split; intros tpv s1 resp err Hf Hn Hresp.
  - destruct (Policy_Do_behaves req s r u Hreq Hurl tpv) as [Hf' Hrun].
    rewrite Hf' in Hf. injection Hf as <-.
    rewrite Hrun, Hn. cbn [fst].
    erewrite restore_runs;
      [| rewrite Hresp; cbn [reqs]; apply lookup_insert_eq
       | cbn [urls http.Request.URL http.Request.withHeader http.Request.withHost];
         apply lookup_insert_eq].
    eexists. split; [reflexivity|].
    cbn [reqs urls http.Request.URL http.Request.withHeader http.Request.withHost].
    rewrite insert_insert_eq, url_restored, (insert_id _ _ _ Hurl).
    match goal with |- forwarded _ ?s2 = _ =>
      destruct (Policy_Do_behaves req s2 _ u (lookup_insert_eq _ _ _) Hurl tpv) as [Hf2 _] end.
    rewrite Hf2. cbn [reqs urls http.Request.URL http.Request.Header http.Request.Method
                      http.Request.Body http.Request.ContentLength http.Request.Host
                      http.Request.withHeader http.Request.withHost].
    rewrite insert_insert_eq.
    pose proof (Set3_again (http.Request.Header r)
                  "x-recording-upstream-base-uri" (url.Scheme u +:+ "://" +:+ url.Host u)
                  "x-recording-mode" (Policy.Mode tpv)
                  "x-recording-id" (Policy.RecordingId tpv)) as Hs3.
    cbv zeta in Hs3. rewrite Hs3. reflexivity.
  - destruct (Wrapper_Do_behaves req s r u Hreq Hurl tpv) as [Hf' Hrun].
    rewrite Hf' in Hf. injection Hf as <-.
    rewrite Hrun, Hn. cbn [fst].
    erewrite restore_runs;
      [| rewrite Hresp; cbn [reqs]; apply lookup_insert_eq
       | cbn [urls http.Request.URL http.Request.withHeader http.Request.withHost];
         apply lookup_insert_eq].
    eexists. split; [reflexivity|].
    cbn [reqs urls http.Request.URL http.Request.withHeader http.Request.withHost].
    rewrite insert_insert_eq, url_restored, (insert_id _ _ _ Hurl).
    match goal with |- forwarded _ ?s2 = _ =>
      destruct (Wrapper_Do_behaves req s2 _ u (lookup_insert_eq _ _ _) Hurl tpv) as [Hf2 _] end.
    rewrite Hf2. cbn [reqs urls http.Request.URL http.Request.Header http.Request.Method
                      http.Request.Body http.Request.ContentLength http.Request.Host
                      http.Request.withHeader http.Request.withHost].
    rewrite insert_insert_eq.
    pose proof (Set3_again (http.Request.Header r)
                  "x-recording-upstream-base-uri" (url.Scheme u +:+ "://" +:+ url.Host u)
                  "x-recording-mode" (Wrapper.Mode tpv)
                  "x-recording-id" (Wrapper.RecordingId tpv)) as Hs3.
    cbv zeta in Hs3. rewrite Hs3. reflexivity.
Qed.

End DoStable.

(** ** More about start and stop *)

Lemma len_empty (b : string) : len b > 0 -> b <> "".
Proof. intros Hl ->. unfold len in Hl. cbn in Hl. lia. Qed.

Section TransportStart.
Context `{Lib}.

Lemma Transport_Start_sent v creq :
  sent (Transport.StartTestProxy (Some v)) = Some creq ->
  exists marshalled,
    json_Marshal [("x-recording-file", Transport.CurrentRecordingPath v)] = (marshalled, None) /\
    creq = ClientRequest.mk "POST"
             ("https://" +:+ Transport.Host v +:+ ":" +:+ pretty (Transport.Port v)
              +:+ "/" +:+ Transport.Mode v +:+ "/start")
             (http.Set_ ∅ "Content-Type" "application/json") (Some marshalled) (len marshalled).
Proof.
  unfold Transport.StartTestProxy, NewRequest.
  destruct (url_Parse _) as [e|]; [discriminate|].
  destruct (json_Marshal _) as [m [e|]]; [discriminate|].
  cbn. intros [= <-]. exists m. split; reflexivity.
Qed.

Lemma Transport_Start_unsent client v :
  sent (Transport.StartTestProxy (Some v)) = None ->
  exists e, exec client (Transport.StartTestProxy (Some v)) = Done (v, Some e).
Proof.
  unfold Transport.StartTestProxy, NewRequest.
  destruct (url_Parse _) as [e|]; [intros _; exists e; reflexivity|].
  destruct (json_Marshal _) as [m [e|]]; [intros _; exists e; reflexivity|].
  cbn. discriminate.
Qed.

End TransportStart.

(** X10: when the proxy answers start with a non-empty [x-recording-id] and a
    readable body that is empty or unmarshals, start returns no error and the
    session holds the received id; an empty body is accepted without being
    unmarshalled.  The start of [testproxytransport.go] stores the header
    value and returns no error whatever the header value and the body are. *)
Theorem Start_stores_the_received_id `{Lib} (client : Client) (resp : http.Response.t) :
  (forall t v creq,
      sent (Policy.StartTestProxy t (Some v)) = Some creq ->
      client creq = (Some resp, None) ->
      http.Get (http.Response.Header resp) "x-recording-id" <> "" ->
      http.readErr (http.Response.Body resp) = None ->
      http.data (http.Response.Body resp) = "" \/
        json_Unmarshal (http.data (http.Response.Body resp)) = None ->
      exec client (Policy.StartTestProxy t (Some v))
        = Done (Some (Policy.withRecordingId
                        (http.Get (http.Response.Header resp) "x-recording-id") v), None)) /\
  (forall t v creq,
      sent (Wrapper.StartTestProxy t (Some v)) = Some creq ->
      client creq = (Some resp, None) ->
      http.Get (http.Response.Header resp) "x-recording-id" <> "" ->
      http.readErr (http.Response.Body resp) = None ->
      http.data (http.Response.Body resp) = "" \/
        json_Unmarshal (http.data (http.Response.Body resp)) = None ->
      exec client (Wrapper.StartTestProxy t (Some v))
        = Done (Some (Wrapper.withRecordingId
                        (http.Get (http.Response.Header resp) "x-recording-id") v), None)) /\
  (forall v creq,
      sent (Transport.StartTestProxy (Some v)) = Some creq ->
      client creq = (Some resp, None) ->
      exec client (Transport.StartTestProxy (Some v))
        = Done (Transport.withRecordingId
                  (http.Get (http.Response.Header resp) "x-recording-id") v, None)).
Proof.
  split; [|split].
  - intros t v creq Hs Hc Hid Hread Hbody.
    rewrite (Policy_Start_exec client t v creq Hs), Hc.
    cbn [fst snd]. cbv zeta.
    destruct (decide _) as [He|_]; [contradiction|]. rewrite Hread.
    destruct (decide _) as [Hl|_]; [|reflexivity].
    destruct Hbody as [Hb|Hb]; [apply len_empty in Hl; contradiction|].
    rewrite Hb. reflexivity.
  - intros t v creq Hs Hc Hid Hread Hbody.
    rewrite (Wrapper_Start_exec client t v creq Hs), Hc.
    cbn [fst snd]. cbv zeta.
    destruct (decide _) as [He|_]; [contradiction|]. rewrite Hread.
    destruct (decide _) as [Hl|_]; [|reflexivity].
    destruct Hbody as [Hb|Hb]; [apply len_empty in Hl; contradiction|].
    rewrite Hb. reflexivity.
  - intros v creq Hs Hc. rewrite (Transport_Start_exec client v creq Hs), Hc. reflexivity.
Qed.

(** X11: when the client returns an error to start, every variant returns
    that very error and leaves the session as it was, even if a response came
    along with the error. *)
Theorem Start_returns_the_client_error `{Lib} (client : Client) (err : error) :
  (forall t v creq,
      sent (Policy.StartTestProxy t (Some v)) = Some creq ->
      snd (client creq) = Some err ->
      exec client (Policy.StartTestProxy t (Some v)) = Done (Some v, Some err)) /\
  (forall t v creq,
      sent (Wrapper.StartTestProxy t (Some v)) = Some creq ->
      snd (client creq) = Some err ->
      exec client (Wrapper.StartTestProxy t (Some v)) = Done (Some v, Some err)) /\
  (forall v creq,
      sent (Transport.StartTestProxy (Some v)) = Some creq ->
      snd (client creq) = Some err ->
      exec client (Transport.StartTestProxy (Some v)) = Done (v, Some err)).
Proof.
  split; [|split].
  - intros t v creq Hs He. rewrite (Policy_Start_exec client t v creq Hs), He. reflexivity.
  - intros t v creq Hs He. rewrite (Wrapper_Start_exec client t v creq Hs), He. reflexivity.
  - intros v creq Hs He. rewrite (Transport_Start_exec client v creq Hs), He. reflexivity.
Qed.

Section StartOutcome.
Context `{Lib} (client : Client).

Lemma Policy_Start_session t v v' e :
  exec client (Policy.StartTestProxy t (Some v)) = Done (Some v', e) ->
  v' = v \/ exists id, v' = Policy.withRecordingId id v.
Proof.
  intros Hx. destruct (sent (Policy.StartTestProxy t (Some v))) as [creq|] eqn:Hs.
  - rewrite (Policy_Start_exec client t v creq Hs) in Hx.
    destruct (snd (client creq)); [injection Hx as <- _; left; reflexivity|].
    destruct (fst (client creq)) as [resp|]; [|discriminate].
    cbv zeta in Hx.
    destruct (decide _); destruct (http.readErr _);
      try (injection Hx as <- _; first [left; reflexivity | right; eexists; reflexivity]).
    destruct (decide _); injection Hx as <- _; right; eexists; reflexivity.
  - destruct (Policy_Start_unsent client t v Hs) as [e0 He0].
    rewrite He0 in Hx. injection Hx as <- _. left. reflexivity.
Qed.

Lemma Wrapper_Start_session t v v' e :
  exec client (Wrapper.StartTestProxy t (Some v)) = Done (Some v', e) ->
  v' = v \/ exists id, v' = Wrapper.withRecordingId id v.
Proof.
  intros Hx. destruct (sent (Wrapper.StartTestProxy t (Some v))) as [creq|] eqn:Hs.
  - rewrite (Wrapper_Start_exec client t v creq Hs) in Hx.
    destruct (snd (client creq)); [injection Hx as <- _; left; reflexivity|].
    destruct (fst (client creq)) as [resp|]; [|discriminate].
    cbv zeta in Hx.
    destruct (decide _); destruct (http.readErr _);
      try (injection Hx as <- _; first [left; reflexivity | right; eexists; reflexivity]).
    destruct (decide _); injection Hx as <- _; right; eexists; reflexivity.
  - destruct (Wrapper_Start_unsent client t v Hs) as [e0 He0].
    rewrite He0 in Hx. injection Hx as <- _. left. reflexivity.
Qed.

Lemma Transport_Start_session v v' e :
  exec client (Transport.StartTestProxy (Some v)) = Done (v', e) ->
  v' = v \/ exists id, v' = Transport.withRecordingId id v.
Proof.
  intros Hx. destruct (sent (Transport.StartTestProxy (Some v))) as [creq|] eqn:Hs.
  - rewrite (Transport_Start_exec client v creq Hs) in Hx.
    destruct (snd (client creq)); [injection Hx as <- _; left; reflexivity|].
    destruct (fst (client creq)) as [resp|]; [|discriminate].
    injection Hx as <- _. right. eexists. reflexivity.
  - destruct (Transport_Start_unsent client v Hs) as [e0 He0].
    rewrite He0 in Hx. injection Hx as <- _. left. reflexivity.
Qed.

(** X12: whatever start returns, it changes nothing of the session but the
    recording id: host, port, mode and recording path are as before. *)
Theorem Start_keeps_the_connection_settings :
  (forall t v v' e,
      exec client (Policy.StartTestProxy t (Some v)) = Done (Some v', e) ->
      Policy.Host v' = Policy.Host v /\ Policy.Port v' = Policy.Port v /\
      Policy.Mode v' = Policy.Mode v /\ Policy.RecordingPath v' = Policy.RecordingPath v) /\
  (forall t v v' e,
      exec client (Wrapper.StartTestProxy t (Some v)) = Done (Some v', e) ->
      Wrapper.Host v' = Wrapper.Host v /\ Wrapper.Port v' = Wrapper.Port v /\
      Wrapper.Mode v' = Wrapper.Mode v /\ Wrapper.RecordingPath v' = Wrapper.RecordingPath v) /\
  (forall v v' e,
      exec client (Transport.StartTestProxy (Some v)) = Done (v', e) ->
      Transport.Host v' = Transport.Host v /\ Transport.Port v' = Transport.Port v /\
      Transport.Mode v' = Transport.Mode v /\
      Transport.CurrentRecordingPath v' = Transport.CurrentRecordingPath v).
Proof.
  split; [|split].
  - intros t v v' e Hx. destruct (Policy_Start_session t v v' e Hx) as [->|[id ->]];
      repeat split.
  - intros t v v' e Hx. destruct (Wrapper_Start_session t v v' e Hx) as [->|[id ->]];
      repeat split.
  - intros v v' e Hx. destruct (Transport_Start_session v v' e Hx) as [->|[id ->]];
      repeat split.
Qed.

End StartOutcome.

(** X13: when the target URL does not parse, start and stop of every variant
    return the parse error without handing anything to the client, and start
    leaves the session as it was. *)
Theorem unparsable_target_stops_before_the_client `{Lib} (client : Client) (e : error) :
  (forall t v,
      url_Parse (Policy.baseURL v +:+ "/" +:+ Policy.Mode v +:+ "/start") = Some e ->
      sent (Policy.StartTestProxy t (Some v)) = None /\
      exec client (Policy.StartTestProxy t (Some v)) = Done (Some v, Some e)) /\
  (forall t v,
      url_Parse (Policy.baseURL v +:+ "/" +:+ Policy.Mode v +:+ "/stop") = Some e ->
      sent (Policy.StopTestProxy t (Some v)) = None /\
      exec client (Policy.StopTestProxy t (Some v)) = Done (Some e)) /\
  (forall t v,
      url_Parse (Wrapper.baseURL v +:+ "/" +:+ Wrapper.Mode v +:+ "/start") = Some e ->
      sent (Wrapper.StartTestProxy t (Some v)) = None /\
      exec client (Wrapper.StartTestProxy t (Some v)) = Done (Some v, Some e)) /\
  (forall t v,
      url_Parse (Wrapper.baseURL v +:+ "/" +:+ Wrapper.Mode v +:+ "/stop") = Some e ->
      sent (Wrapper.StopTestProxy t (Some v)) = None /\
      exec client (Wrapper.StopTestProxy t (Some v)) = Done (Some e)) /\
  (forall v,
      url_Parse ("https://" +:+ Transport.Host v +:+ ":" +:+ pretty (Transport.Port v)
                 +:+ "/" +:+ Transport.Mode v +:+ "/start") = Some e ->
      sent (Transport.StartTestProxy (Some v)) = None /\
      exec client (Transport.StartTestProxy (Some v)) = Done (v, Some e)) /\
  (forall v,
      url_Parse ("https://" +:+ Transport.Host v +:+ ":" +:+ pretty (Transport.Port v)
                 +:+ "/" +:+ Transport.Mode v +:+ "/stop") = Some e ->
      sent (Transport.StopTestProxy (Some v)) = None /\
      exec client (Transport.StopTestProxy (Some v)) = Done (Some e)).
Proof.
  split; [|split; [|split; [|split; [|split]]]].
  - intros t v Hp. unfold Policy.StartTestProxy, NewRequest. rewrite Hp. split; reflexivity.
  - intros t v Hp. unfold Policy.StopTestProxy, NewRequest. rewrite Hp. split; reflexivity.
  - intros t v Hp. unfold Wrapper.StartTestProxy, NewRequest. rewrite Hp. split; reflexivity.
  - intros t v Hp. unfold Wrapper.StopTestProxy, NewRequest. rewrite Hp. split; reflexivity.
  - intros v Hp. unfold Transport.StartTestProxy, NewRequest. rewrite Hp. split; reflexivity.
  - intros v Hp. unfold Transport.StopTestProxy, NewRequest. rewrite Hp. split; reflexivity.
Qed.

(** X14: with a nil session, start and stop of the [TestProxy] and
    [TestProxyVariable] variants return the "TestProxy not empty" error and
    send nothing, whereas start and stop of [testproxytransport.go] panic on
    the nil pointer. *)
Theorem nil_session `{Lib} (client : Client) (t : testing.T) :
  (sent (Policy.StartTestProxy t None) = None /\
   exec client (Policy.StartTestProxy t None)
     = Done (None, Some (fmtError "TestProxy not empty"))) /\
  (sent (Policy.StopTestProxy t None) = None /\
   exec client (Policy.StopTestProxy t None) = Done (Some (fmtError "TestProxy not empty"))) /\
  (sent (Wrapper.StartTestProxy t None) = None /\
   exec client (Wrapper.StartTestProxy t None)
     = Done (None, Some (fmtError "TestProxy not empty"))) /\
  (sent (Wrapper.StopTestProxy t None) = None /\
   exec client (Wrapper.StopTestProxy t None) = Done (Some (fmtError "TestProxy not empty"))) /\
  exec client (Transport.StartTestProxy None) = Crashed nilDeref /\
  exec client (Transport.StopTestProxy None) = Crashed nilDeref.
Proof. repeat split. Qed.

Section StartThenStop.
Context `{Lib} (client : Client).

Lemma Policy_Start_succeeded t v v' :
  exec client (Policy.StartTestProxy t (Some v)) = Done (Some v', None) ->
  exists creq resp,
    sent (Policy.StartTestProxy t (Some v)) = Some creq /\
    client creq = (Some resp, None) /\
    http.Get (http.Response.Header resp) "x-recording-id" <> "" /\
    v' = Policy.withRecordingId (http.Get (http.Response.Header resp) "x-recording-id") v.
Proof.
  intros Hx. destruct (sent (Policy.StartTestProxy t (Some v))) as [creq|] eqn:Hs.
  - rewrite (Policy_Start_exec client t v creq Hs) in Hx.
    destruct (client creq) as [[resp|] [err|]] eqn:Hc; cbn [fst snd] in Hx; try discriminate.
    cbv zeta in Hx.
    destruct (decide _) as [Hid|Hid]; [destruct (http.readErr _); discriminate|].
    exists creq, resp. split; [reflexivity|]. split; [exact Hc|]. split; [exact Hid|].
    destruct (http.readErr _); [discriminate|].
    destruct (decide _); [injection Hx as <- _ | injection Hx as <-]; reflexivity.
  - destruct (Policy_Start_unsent client t v Hs) as [e0 He0].
    rewrite He0 in Hx. discriminate.
Qed.

Lemma Wrapper_Start_succeeded t v v' :
  exec client (Wrapper.StartTestProxy t (Some v)) = Done (Some v', None) ->
  exists creq resp,
    sent (Wrapper.StartTestProxy t (Some v)) = Some creq /\
    client creq = (Some resp, None) /\
    http.Get (http.Response.Header resp) "x-recording-id" <> "" /\
    v' = Wrapper.withRecordingId (http.Get (http.Response.Header resp) "x-recording-id") v.
Proof.
  intros Hx. destruct (sent (Wrapper.StartTestProxy t (Some v))) as [creq|] eqn:Hs.
  - rewrite (Wrapper_Start_exec client t v creq Hs) in Hx.
    destruct (client creq) as [[resp|] [err|]] eqn:Hc; cbn [fst snd] in Hx; try discriminate.
    cbv zeta in Hx.
    destruct (decide _) as [Hid|Hid]; [destruct (http.readErr _); discriminate|].
    exists creq, resp. split; [reflexivity|]. split; [exact Hc|]. split; [exact Hid|].
    destruct (http.readErr _); [discriminate|].
    destruct (decide _); [injection Hx as <- _ | injection Hx as <-]; reflexivity.
  - destruct (Wrapper_Start_unsent client t v Hs) as [e0 He0].
    rewrite He0 in Hx. discriminate.
Qed.

Lemma Transport_Start_succeeded v v' :
  exec client (Transport.StartTestProxy (Some v)) = Done (v', None) ->
  exists creq resp,
    sent (Transport.StartTestProxy (Some v)) = Some creq /\
    client creq = (Some resp, None) /\
    v' = Transport.withRecordingId (http.Get (http.Response.Header resp) "x-recording-id") v.
Proof.
  intros Hx. destruct (sent (Transport.StartTestProxy (Some v))) as [creq|] eqn:Hs.
  - rewrite (Transport_Start_exec client v creq Hs) in Hx.
    destruct (client creq) as [[resp|] [err|]] eqn:Hc; cbn [fst snd] in Hx; try discriminate.
    injection Hx as <-. exists creq, resp. repeat split. exact Hc.
  - destruct (Transport_Start_unsent client v Hs) as [e0 He0].
    rewrite He0 in Hx. discriminate.
Qed.

(** X15: a stop that follows a start without error sends, under
    [x-recording-id], the very id the proxy returned to that start, to the
    stop path of the same base URL and mode. *)
Theorem Stop_sends_the_id_Start_received :
  (forall t v v' creq',
      exec client (Policy.StartTestProxy t (Some v)) = Done (Some v', None) ->
      sent (Policy.StopTestProxy t (Some v')) = Some creq' ->
      exists creq resp,
        sent (Policy.StartTestProxy t (Some v)) = Some creq /\
        client creq = (Some resp, None) /\
        carries (ClientRequest.Header creq') "x-recording-id"
          (http.Get (http.Response.Header resp) "x-recording-id") /\
        ClientRequest.Target creq' = Policy.baseURL v +:+ "/" +:+ Policy.Mode v +:+ "/stop") /\
  (forall t v v' creq',
      exec client (Wrapper.StartTestProxy t (Some v)) = Done (Some v', None) ->
      sent (Wrapper.StopTestProxy t (Some v')) = Some creq' ->
      exists creq resp,
        sent (Wrapper.StartTestProxy t (Some v)) = Some creq /\
        client creq = (Some resp, None) /\
        carries (ClientRequest.Header creq') "x-recording-id"
          (http.Get (http.Response.Header resp) "x-recording-id") /\
        ClientRequest.Target creq' = Wrapper.baseURL v +:+ "/" +:+ Wrapper.Mode v +:+ "/stop") /\
  (forall v v' creq',
      exec client (Transport.StartTestProxy (Some v)) = Done (v', None) ->
      sent (Transport.StopTestProxy (Some v')) = Some creq' ->
      exists creq resp,
        sent (Transport.StartTestProxy (Some v)) = Some creq /\
        client creq = (Some resp, None) /\
        carries (ClientRequest.Header creq') "x-recording-id"
          (http.Get (http.Response.Header resp) "x-recording-id") /\
        ClientRequest.Target creq'
          = "https://" +:+ Transport.Host v +:+ ":" +:+ pretty (Transport.Port v)
            +:+ "/" +:+ Transport.Mode v +:+ "/stop").
Proof.
  split; [|split].
  - intros t v v' creq' Hx Hs'.
    destruct (Policy_Start_succeeded t v v' Hx) as (creq & resp & Hs & Hc & _ & ->).
    apply Policy_Stop_sent in Hs' as ->.
    exists creq, resp. split; [exact Hs|]. split; [exact Hc|].
    split; [apply carries_Set_same | reflexivity].
  - intros t v v' creq' Hx Hs'.
    destruct (Wrapper_Start_succeeded t v v' Hx) as (creq & resp & Hs & Hc & _ & ->).
    apply Wrapper_Stop_sent in Hs' as ->.
    exists creq, resp. split; [exact Hs|]. split; [exact Hc|].
    split; [apply carries_Set_same | reflexivity].
  - intros v v' creq' Hx Hs'.
    destruct (Transport_Start_succeeded v v' Hx) as (creq & resp & Hs & Hc & ->).
    apply Transport_Stop_sent in Hs' as ->.
    exists creq, resp. split; [exact Hs|]. split; [exact Hc|].
    split; [|reflexivity].
    apply carries_Set_other; [discriminate | apply carries_Set_same].
Qed.

End StartThenStop.

(** X16: when the client hands stop a response with a status other than 200
    together with an error (as [http.Client] does when it gives up on
    redirects), the stop of the [TestProxy] and [TestProxyVariable] variants
    drops the client's error and returns the "proxy did not stop the
    recording properly" error, built from the body or, when the body cannot
    be read (it is closed already), from the read error's text. *)
Theorem Stop_with_response_and_error `{Lib} (client : Client)
    (resp : http.Response.t) (err : error) :
  http.Response.StatusCode resp <> 200 ->
  (forall t v creq,
      sent (Policy.StopTestProxy t (Some v)) = Some creq ->
      client creq = (Some resp, Some err) ->
      exec client (Policy.StopTestProxy t (Some v))
        = Done (Some (fmtError ("proxy did not stop the recording properly: " +:+
                        match http.readErr (http.Response.Body resp) with
                        | None => http.data (http.Response.Body resp)
                        | Some re => Error re
                        end)))) /\
  (forall t v creq,
      sent (Wrapper.StopTestProxy t (Some v)) = Some creq ->
      client creq = (Some resp, Some err) ->
      exec client (Wrapper.StopTestProxy t (Some v))
        = Done (Some (fmtError ("proxy did not stop the recording properly: " +:+
                        match http.readErr (http.Response.Body resp) with
                        | None => http.data (http.Response.Body resp)
                        | Some re => Error re
                        end)))).
Proof.
  intros Hst. split.
  - intros t v creq Hs Hc.
    rewrite (Policy_Stop_exec client t v creq Hs), Hc. cbn [fst snd].
    destruct (decide _) as [_|Hn]; [|contradiction].
    destruct (http.readErr _); reflexivity.
  - intros t v creq Hs Hc.
    rewrite (Wrapper_Stop_exec client t v creq Hs), Hc. cbn [fst snd].
    destruct (decide _) as [_|Hn]; [|contradiction].
    destruct (http.readErr _); reflexivity.
Qed.

(** X17: the request start hands to the client is a POST to
    [<base URL>/<mode>/start] with [Content-Type: application/json], whose
    body is the marshalled object with the one field [x-recording-file] and
    whose content length is the length of that body; the file is
    [<RecordingPath>/recordings/<test name>.json] joined by [path.Join] in the
    [TestProxy] and [TestProxyVariable] variants and [CurrentRecordingPath]
    in [testproxytransport.go]. *)
Theorem Start_request `{Lib} :
  (forall t v creq,
      sent (Policy.StartTestProxy t (Some v)) = Some creq ->
      ClientRequest.Method creq = "POST" /\
      ClientRequest.Target creq = Policy.baseURL v +:+ "/" +:+ Policy.Mode v +:+ "/start" /\
      carries (ClientRequest.Header creq) "Content-Type" "application/json" /\
      exists body,
        json_Marshal [("x-recording-file",
                       path_Join [Policy.RecordingPath v; "recordings";
                                  testing.Name t +:+ ".json"])] = (body, None) /\
        ClientRequest.Body creq = Some body /\
        ClientRequest.ContentLength creq = Z.of_nat (String.length body)) /\
  (forall t v creq,
      sent (Wrapper.StartTestProxy t (Some v)) = Some creq ->
      ClientRequest.Method creq = "POST" /\
      ClientRequest.Target creq = Wrapper.baseURL v +:+ "/" +:+ Wrapper.Mode v +:+ "/start" /\
      carries (ClientRequest.Header creq) "Content-Type" "application/json" /\
      exists body,
        json_Marshal [("x-recording-file",
                       path_Join [Wrapper.RecordingPath v; "recordings";
                                  testing.Name t +:+ ".json"])] = (body, None) /\
        ClientRequest.Body creq = Some body /\
        ClientRequest.ContentLength creq = Z.of_nat (String.length body)) /\
  (forall v creq,
      sent (Transport.StartTestProxy (Some v)) = Some creq ->
      ClientRequest.Method creq = "POST" /\
      ClientRequest.Target creq
        = "https://" +:+ Transport.Host v +:+ ":" +:+ pretty (Transport.Port v)
          +:+ "/" +:+ Transport.Mode v +:+ "/start" /\
      carries (ClientRequest.Header creq) "Content-Type" "application/json" /\
      exists body,
        json_Marshal [("x-recording-file", Transport.CurrentRecordingPath v)] = (body, None) /\
        ClientRequest.Body creq = Some body /\
        ClientRequest.ContentLength creq = Z.of_nat (String.length body)).
Proof.
  split; [|split].
  - intros t v creq Hs. apply Policy_Start_sent in Hs as (_ & m & Hm & ->).
    split; [reflexivity|]. split; [reflexivity|]. split; [apply carries_Set_same|].
    exists m. split; [exact Hm|]. split; reflexivity.
  - intros t v creq Hs. apply Wrapper_Start_sent in Hs as (_ & m & Hm & ->).
    split; [reflexivity|]. split; [reflexivity|]. split; [apply carries_Set_same|].
    exists m. split; [exact Hm|]. split; reflexivity.
  - intros v creq Hs. apply Transport_Start_sent in Hs as (m & Hm & ->).
    split; [reflexivity|]. split; [reflexivity|]. split; [apply carries_Set_same|].
    exists m. split; [exact Hm|]. split; reflexivity.
Qed.

(** X18: a transport built by [NewTestProxyTransport(transport, host, port,
    recordingId, mode)] forwards every request to [host:port] with
    [x-recording-id] set to [recordingId] and [x-recording-mode] set to
    [mode]: the two string arguments are not swapped on the way. *)
Theorem NewTestProxyTransport_Do
    (host : string) (port : Z) (recordingId mode : string)
    (req : loc) (s : Store) (r : http.Request.t) (u : url.URL) :
  reqs s !! req = Some r ->
  urls s !! http.Request.URL r = Some u ->
  exists r1 u1,
    forwardedRequest (Transport.Do (Transport.NewTestProxyTransport host port recordingId mode)
                                   req) s = Some r1 /\
    forwardedURL (Transport.Do (Transport.NewTestProxyTransport host port recordingId mode)
                               req) s = Some u1 /\
    url.Host u1 = host +:+ ":" +:+ pretty port /\
    carries (http.Request.Header r1) "x-recording-id" recordingId /\
    carries (http.Request.Header r1) "x-recording-mode" mode.
Proof.
  intros Hr Hu.
  destruct (Transport_Do_behaves req s r u Hr Hu
              (Transport.NewTestProxyTransport host port recordingId mode)) as [Hf _].
  apply forwarded_views in Hf as [Hq Hv]; [|reflexivity].
  do 2 eexists. split; [exact Hq|]. split; [exact Hv|]. split; [reflexivity|].
  split; apply recordingHeaders_id_first.
Qed.

(** ** The further properties at concrete inputs *)

Lemma Load_reads_back_witness :
  (Forall storable FixtureEnv.settings /\
   @ReadFile (FixtureEnv.unix {[ "/repo/.env" := FixtureEnv.dotenv ]}) "/repo/.env"
     = inl (unlines (map (envLine true) FixtureEnv.settings))) /\
  @parse.Load (FixtureEnv.unix {[ "/repo/.env" := FixtureEnv.dotenv ]}) "/repo/.env" ∅
    = (<["PROXY_PORT" := "5001"]> (<["PROXY_HOST" := "localhost"]>
         (<["USE_PROXY" := "true"]> ∅)), None).
Proof.
  assert (Hst : Forall storable FixtureEnv.settings).
  { repeat (constructor; [repeat split|]). constructor. }
  split; [split; [exact Hst | reflexivity]|].
  exact (@Load_reads_back (FixtureEnv.unix {[ "/repo/.env" := FixtureEnv.dotenv ]})
           "/repo/.env" true FixtureEnv.settings ∅ Hst eq_refl).
Defined.

Lemma Load_skips_malformed_lines_witness :
  (@ReadFile (FixtureEnv.unix {[ "/repo/.env" := FixtureEnv.dotenvEquals ]}) "/repo/.env"
     = inl FixtureEnv.dotenvEquals /\
   Forall (fun line => count space line <> 1%nat)
          (gostrings.Split FixtureEnv.dotenvEquals newline)) /\
  @parse.Load (FixtureEnv.unix {[ "/repo/.env" := FixtureEnv.dotenvEquals ]}) "/repo/.env" ∅
    = (∅, None).
Proof.
  assert (Hall : Forall (fun line => count space line <> 1%nat)
                        (gostrings.Split FixtureEnv.dotenvEquals newline)).
  { vm_compute gostrings.Split. repeat (constructor; [vm_compute; discriminate|]). constructor. }
  split; [split; [reflexivity | exact Hall]|].
  exact (@Load_skips_malformed_lines
           (FixtureEnv.unix {[ "/repo/.env" := FixtureEnv.dotenvEquals ]})
           "/repo/.env" FixtureEnv.dotenvEquals ∅ eq_refl Hall).
Defined.

Lemma Load_ignores_inserted_line_witness :
  (Forall (fun x => count newline x = 0%nat)
          (["USE_PROXY true"] ++ "PROXY_MODE = record" :: ["PROXY_PORT 5001"])%list /\
   count space "PROXY_MODE = record" <> 1%nat) /\
  @parse.Load (FixtureEnv.unix
                 {[ "/a" := unlines ["USE_PROXY true"; "PROXY_MODE = record"; "PROXY_PORT 5001"];
                    "/b" := unlines ["USE_PROXY true"; "PROXY_PORT 5001"] ]}) "/a" ∅
  = @parse.Load (FixtureEnv.unix
                 {[ "/a" := unlines ["USE_PROXY true"; "PROXY_MODE = record"; "PROXY_PORT 5001"];
                    "/b" := unlines ["USE_PROXY true"; "PROXY_PORT 5001"] ]}) "/b" ∅.
Proof.
  assert (Hall : Forall (fun x => count newline x = 0%nat)
            (["USE_PROXY true"] ++ "PROXY_MODE = record" :: ["PROXY_PORT 5001"])%list).
  { repeat (constructor; [reflexivity|]). constructor. }
  assert (Hline : count space "PROXY_MODE = record" <> 1%nat) by (vm_compute; discriminate).
  split; [split; [exact Hall | exact Hline]|].
  apply (@Load_ignores_inserted_line
           (FixtureEnv.unix
              {[ "/a" := unlines ["USE_PROXY true"; "PROXY_MODE = record"; "PROXY_PORT 5001"];
                 "/b" := unlines ["USE_PROXY true"; "PROXY_PORT 5001"] ]})
           "/a" "/b" ["USE_PROXY true"] ["PROXY_PORT 5001"] "PROXY_MODE = record" ∅
           Hall Hline).
  - discriminate.
  - reflexivity.
  - reflexivity.
Defined.

Lemma Do_round_trips_the_shared_URL_witness :
  (reqs Fixture.store0 !! 1%positive = Some Fixture.request0 /\
   urls Fixture.store0 !! http.Request.URL Fixture.request0 = Some Fixture.url0) /\
  exists s2 r2,
    run Fixture.echo (Policy.Do Fixture.policy0 1) Fixture.store0
      = Done ((Some (http.Response.mk 200 ∅ (http.mkBody "" None) 1), None), s2) /\
    urls s2 = urls Fixture.store0 /\
    reqs s2 !! 1%positive = Some r2 /\
    http.Request.Host r2 = "localhost:5001" /\
    recordingHeaders (http.Request.Header r2) "https://service.example.com" "record" "abc123".
Proof.
  split; [split; reflexivity|].
  apply (proj1 (Do_round_trips_the_shared_URL Fixture.echo 1 Fixture.store0
                  Fixture.request0 Fixture.url0 eq_refl eq_refl) Fixture.policy0
           (match forwarded (Policy.Do Fixture.policy0 1) Fixture.store0 with
            | Some (_, s1) => s1
            | None => Fixture.store0
            end)
           (http.Response.mk 200 ∅ (http.mkBody "" None) 1) None).
  - vm_compute. reflexivity.
  - reflexivity.
  - reflexivity.
Defined.

Lemma Do_panics_on_response_without_request_witness :
  (reqs Fixture.store0 !! 1%positive = Some Fixture.request0 /\
   urls Fixture.store0 !! http.Request.URL Fixture.request0 = Some Fixture.url0) /\
  run FixtureEnv.orphan (Wrapper.Do Fixture.wrapper0 1) Fixture.store0 = Crashed nilDeref.
Proof.
  split; [split; reflexivity|].
  apply (proj2 (Do_panics_on_response_without_request FixtureEnv.orphan 1 Fixture.store0
                  Fixture.request0 Fixture.url0 eq_refl eq_refl) Fixture.wrapper0
           (match forwarded (Wrapper.Do Fixture.wrapper0 1) Fixture.store0 with
            | Some (_, s1) => s1
            | None => Fixture.store0
            end)
           (http.Response.mk 200 ∅ (http.mkBody "" None) 99) None
           (match forwarded (Wrapper.Do Fixture.wrapper0 1) Fixture.store0 with
            | Some (_, s1) => s1
            | None => Fixture.store0
            end)).
  - vm_compute. reflexivity.
  - reflexivity.
  - vm_compute. reflexivity.
Defined.

Lemma Transport_Do_again_names_the_proxy_witness :
  (reqs Fixture.store0 !! 1%positive = Some Fixture.request0 /\
   urls Fixture.store0 !! http.Request.URL Fixture.request0 = Some Fixture.url0 /\
   forall l st, snd (Fixture.echo l st) = st) /\
  exists rt s2 r2,
    run Fixture.echo (Transport.Do Fixture.transport0 1) Fixture.store0 = Done (rt, s2) /\
    forwardedRequest (Transport.Do Fixture.transport0 1) s2 = Some r2 /\
    carries (http.Request.Header r2) "x-recording-upstream-base-uri" "https://localhost:5001".
Proof.
  split; [split; [reflexivity | split; [reflexivity | intros l st; reflexivity]]|].
  exact (Transport_Do_again_names_the_proxy Fixture.echo 1 Fixture.store0
           Fixture.request0 Fixture.url0 eq_refl eq_refl Fixture.transport0
           (fun l st => eq_refl)).
Defined.

Lemma Do_again_after_failure_witness :
  (reqs Fixture.store0 !! 1%positive = Some Fixture.request0 /\
   urls Fixture.store0 !! http.Request.URL Fixture.request0 = Some Fixture.url0) /\
  exists s1 r2,
    run Fixture.refused (Policy.Do Fixture.policy0 1) Fixture.store0
      = Done ((None, Some (netError "dial tcp: connection refused")), s1) /\
    forwardedRequest (Policy.Do Fixture.policy0 1) s1 = Some r2 /\
    carries (http.Request.Header r2) "x-recording-upstream-base-uri" "https://localhost:5001".
Proof.
  split; [split; reflexivity|].
  destruct (proj1 (Do_again_after_failure_names_the_proxy Fixture.refused 1 Fixture.store0
                     Fixture.request0 Fixture.url0 eq_refl eq_refl) Fixture.policy0
              (match forwarded (Policy.Do Fixture.policy0 1) Fixture.store0 with
               | Some (_, s1) => s1
               | None => Fixture.store0
               end)
              (Some (netError "dial tcp: connection refused")))
    as (Hrun & r2 & Hq & Hc).
  - vm_compute. reflexivity.
  - reflexivity.
  - eexists. exists r2. split; [exact Hrun|]. split; [exact Hq | exact Hc].
Defined.

Lemma Do_again_forwards_the_same_witness :
  (reqs Fixture.store0 !! 1%positive = Some Fixture.request0 /\
   urls Fixture.store0 !! http.Request.URL Fixture.request0 = Some Fixture.url0) /\
  exists s1 s2,
    forwarded (Wrapper.Do Fixture.wrapper0 1) Fixture.store0 = Some (1%positive, s1) /\
    run Fixture.echo (Wrapper.Do Fixture.wrapper0 1) Fixture.store0
      = Done ((Some (http.Response.mk 200 ∅ (http.mkBody "" None) 1), None), s2) /\
    forwarded (Wrapper.Do Fixture.wrapper0 1) s2 = Some (1%positive, s1).
Proof.
  split; [split; reflexivity|].
  assert (Hf : forwarded (Wrapper.Do Fixture.wrapper0 1) Fixture.store0
               = Some (1%positive,
                       match forwarded (Wrapper.Do Fixture.wrapper0 1) Fixture.store0 with
                       | Some (_, s1) => s1
                       | None => Fixture.store0
                       end)) by (vm_compute; reflexivity).
  destruct (proj2 (Do_again_forwards_the_same Fixture.echo 1 Fixture.store0
                     Fixture.request0 Fixture.url0 eq_refl eq_refl) Fixture.wrapper0 _
              (http.Response.mk 200 ∅ (http.mkBody "" None) 1) None Hf eq_refl eq_refl)
    as (s2 & Hrun & Hf2).
  eexists. exists s2. split; [exact Hf|]. split; [exact Hrun | exact Hf2].
Defined.

Lemma Start_stores_the_received_id_witness :
  (http.Get (http.Response.Header
               (http.Response.mk 200 Fixture.idHeader (http.mkBody "" None) 1))
            "x-recording-id" <> "" /\
   sent (@Policy.StartTestProxy Fixture.lib Fixture.t0 (Some Fixture.policyFresh)) <> None) /\
  exec (Fixture.answer 200 Fixture.idHeader (http.mkBody "" None))
       (@Policy.StartTestProxy Fixture.lib Fixture.t0 (Some Fixture.policyFresh))
    = Done (Some (Policy.withRecordingId "abc123" Fixture.policyFresh), None) /\
  exec (Fixture.answer 200 ∅ (http.mkBody "oops" (Some (ioError "unexpected EOF"))))
       (@Transport.StartTestProxy Fixture.lib (Some Fixture.variables0))
    = Done (Transport.withRecordingId "" Fixture.variables0, None).
Proof.
  split; [split; [vm_compute; discriminate | vm_compute; discriminate]|]. split.
  - destruct (sent (@Policy.StartTestProxy Fixture.lib Fixture.t0 (Some Fixture.policyFresh)))
      as [creq|] eqn:Hs; [|vm_compute in Hs; discriminate].
    apply (proj1 (@Start_stores_the_received_id Fixture.lib
                    (Fixture.answer 200 Fixture.idHeader (http.mkBody "" None))
                    (http.Response.mk 200 Fixture.idHeader (http.mkBody "" None) 1))
             Fixture.t0 Fixture.policyFresh creq Hs eq_refl).
    + vm_compute. discriminate.
    + reflexivity.
    + left. reflexivity.
  - destruct (sent (@Transport.StartTestProxy Fixture.lib (Some Fixture.variables0)))
      as [creq|] eqn:Hs; [|vm_compute in Hs; discriminate].
    exact (proj2 (proj2 (@Start_stores_the_received_id Fixture.lib
                    (Fixture.answer 200 ∅ (http.mkBody "oops" (Some (ioError "unexpected EOF"))))
                    (http.Response.mk 200 ∅
                       (http.mkBody "oops" (Some (ioError "unexpected EOF"))) 1)))
             Fixture.variables0 creq Hs eq_refl).
Defined.

Lemma Start_returns_the_client_error_witness :
  exec Fixture.unreachable
       (@Transport.StartTestProxy Fixture.lib (Some Fixture.variablesFresh))
    = Done (Fixture.variablesFresh, Some (netError "dial tcp: connection refused")).
Proof.
  destruct (sent (@Transport.StartTestProxy Fixture.lib (Some Fixture.variablesFresh)))
    as [creq|] eqn:Hs; [|vm_compute in Hs; discriminate].
  exact (proj2 (proj2 (@Start_returns_the_client_error Fixture.lib Fixture.unreachable
                         (netError "dial tcp: connection refused")))
           Fixture.variablesFresh creq Hs eq_refl).
Defined.

Lemma Start_keeps_the_connection_settings_witness :
  exec (Fixture.answer 200 Fixture.idHeader (http.mkBody "oops" None))
       (@Wrapper.StartTestProxy Fixture.lib Fixture.t0 (Some Fixture.wrapperFresh))
    = Done (Some (Wrapper.withRecordingId "abc123" Fixture.wrapperFresh),
            Some (jsonError "invalid character 'o' looking for beginning of value")) /\
  Wrapper.Host (Wrapper.withRecordingId "abc123" Fixture.wrapperFresh) = "localhost" /\
  Wrapper.Port (Wrapper.withRecordingId "abc123" Fixture.wrapperFresh) = 5001 /\
  Wrapper.Mode (Wrapper.withRecordingId "abc123" Fixture.wrapperFresh) = "record" /\
  Wrapper.RecordingPath (Wrapper.withRecordingId "abc123" Fixture.wrapperFresh) = "/repo".
Proof.
  assert (Hx : exec (Fixture.answer 200 Fixture.idHeader (http.mkBody "oops" None))
                 (@Wrapper.StartTestProxy Fixture.lib Fixture.t0 (Some Fixture.wrapperFresh))
               = Done (Some (Wrapper.withRecordingId "abc123" Fixture.wrapperFresh),
                       Some (jsonError "invalid character 'o' looking for beginning of value")))
    by (vm_compute; reflexivity).
  split; [exact Hx|].
  exact (proj1 (proj2 (@Start_keeps_the_connection_settings Fixture.lib
                         (Fixture.answer 200 Fixture.idHeader (http.mkBody "oops" None))))
           Fixture.t0 Fixture.wrapperFresh _ _ Hx).
Defined.

Lemma unparsable_target_witness :
  @url_Parse FixtureEnv.strictLib
     (Policy.baseURL FixtureEnv.policySpaced +:+ "/" +:+ Policy.Mode FixtureEnv.policySpaced
      +:+ "/start")
    = Some (urlError "invalid character in host name") /\
  sent (@Policy.StartTestProxy FixtureEnv.strictLib Fixture.t0 (Some FixtureEnv.policySpaced))
    = None /\
  exec Fixture.unreachable
       (@Policy.StartTestProxy FixtureEnv.strictLib Fixture.t0 (Some FixtureEnv.policySpaced))
    = Done (Some FixtureEnv.policySpaced, Some (urlError "invalid character in host name")).
Proof.
  split; [reflexivity|].
  exact (proj1 (@unparsable_target_stops_before_the_client FixtureEnv.strictLib
                  Fixture.unreachable (urlError "invalid character in host name"))
           Fixture.t0 FixtureEnv.policySpaced eq_refl).
Defined.

Lemma Stop_sends_the_id_Start_received_witness :
  exec (Fixture.answer 200 Fixture.idHeader (http.mkBody "" None))
       (@Policy.StartTestProxy Fixture.lib Fixture.t0 (Some Fixture.policyFresh))
    = Done (Some (Policy.withRecordingId "abc123" Fixture.policyFresh), None) /\
  exists creq' creq resp,
    sent (@Policy.StopTestProxy Fixture.lib Fixture.t0
            (Some (Policy.withRecordingId "abc123" Fixture.policyFresh))) = Some creq' /\
    sent (@Policy.StartTestProxy Fixture.lib Fixture.t0 (Some Fixture.policyFresh))
      = Some creq /\
    Fixture.answer 200 Fixture.idHeader (http.mkBody "" None) creq = (Some resp, None) /\
    carries (ClientRequest.Header creq') "x-recording-id"
      (http.Get (http.Response.Header resp) "x-recording-id") /\
    ClientRequest.Target creq' = "https://localhost:5001/record/stop".
Proof.
  assert (Hx : exec (Fixture.answer 200 Fixture.idHeader (http.mkBody "" None))
                 (@Policy.StartTestProxy Fixture.lib Fixture.t0 (Some Fixture.policyFresh))
               = Done (Some (Policy.withRecordingId "abc123" Fixture.policyFresh), None))
    by (vm_compute; reflexivity).
  split; [exact Hx|].
  destruct (sent (@Policy.StopTestProxy Fixture.lib Fixture.t0
                    (Some (Policy.withRecordingId "abc123" Fixture.policyFresh))))
    as [creq'|] eqn:Hs'; [|vm_compute in Hs'; discriminate].
  destruct (proj1 (@Stop_sends_the_id_Start_received Fixture.lib
                     (Fixture.answer 200 Fixture.idHeader (http.mkBody "" None)))
              Fixture.t0 Fixture.policyFresh _ creq' Hx Hs')
    as (creq & resp & Hs & Hc & Hcar & Ht).
  exists creq', creq, resp.
  split; [reflexivity|]. split; [exact Hs|]. split; [exact Hc|].
  split; [exact Hcar | exact Ht].
Defined.

Lemma Stop_with_response_and_error_witness :
  http.Response.StatusCode
    (http.Response.mk 302 ∅
       (http.mkBody "" (Some (ioError "http: read on closed response body"))) 1) <> 200 /\
  exec (FixtureEnv.redirecting 302)
       (@Policy.StopTestProxy Fixture.lib Fixture.t0 (Some Fixture.policy0))
    = Done (Some (fmtError
        "proxy did not stop the recording properly: http: read on closed response body")).
Proof.
  split; [discriminate|].
  destruct (sent (@Policy.StopTestProxy Fixture.lib Fixture.t0 (Some Fixture.policy0)))
    as [creq|] eqn:Hs; [|vm_compute in Hs; discriminate].
  exact (proj1 (@Stop_with_response_and_error Fixture.lib (FixtureEnv.redirecting 302)
                  (http.Response.mk 302 ∅
                     (http.mkBody "" (Some (ioError "http: read on closed response body"))) 1)
                  (netError "stopped after 10 redirects")
                  ltac:(discriminate))
           Fixture.t0 Fixture.policy0 creq Hs eq_refl).
Defined.

Lemma Start_request_witness :
  exists creq,
    sent (@Transport.StartTestProxy Fixture.lib (Some Fixture.variablesFresh)) = Some creq /\
    ClientRequest.Method creq = "POST" /\
    ClientRequest.Target creq = "https://localhost:5001/record/start" /\
    carries (ClientRequest.Header creq) "Content-Type" "application/json".
Proof.
  destruct (sent (@Transport.StartTestProxy Fixture.lib (Some Fixture.variablesFresh)))
    as [creq|] eqn:Hs; [|vm_compute in Hs; discriminate].
  destruct (proj2 (proj2 (@Start_request Fixture.lib)) Fixture.variablesFresh creq Hs)
    as (Hm & Ht & Hc & _).
  exists creq. split; [reflexivity|]. split; [exact Hm|]. split; [exact Ht | exact Hc].
Defined.

Lemma NewTestProxyTransport_Do_witness :
  (reqs Fixture.store0 !! 1%positive = Some Fixture.request0 /\
   urls Fixture.store0 !! http.Request.URL Fixture.request0 = Some Fixture.url0) /\
  exists r1 u1,
    forwardedRequest
      (Transport.Do (Transport.NewTestProxyTransport "localhost" 5001 "abc123" "record") 1)
      Fixture.store0 = Some r1 /\
    forwardedURL
      (Transport.Do (Transport.NewTestProxyTransport "localhost" 5001 "abc123" "record") 1)
      Fixture.store0 = Some u1 /\
    url.Host u1 = "localhost:5001" /\
    carries (http.Request.Header r1) "x-recording-id" "abc123" /\
    carries (http.Request.Header r1) "x-recording-mode" "record".
Proof.
  split; [split; reflexivity|].
  exact (NewTestProxyTransport_Do "localhost" 5001 "abc123" "record" 1 Fixture.store0
           Fixture.request0 Fixture.url0 eq_refl eq_refl).
Defined.
